(** * The Linear proxy worker (worker/index.js)

    A shallow embedding of the Cloudflare Worker that forwards drag-and-drop
    updates of the dashboard to Linear's GraphQL API, and the properties of
    its HTTP contract.

    The worker is asynchronous JavaScript.  Every [await] of the source is
    sequenced in a state-and-exception monad: the state holds the module
    variable [stateCache] and the list of requests sent to Linear so far, an
    exception is a thrown [Error] with its message.  Console output is not
    part of the state: it reaches neither the response nor Linear.  One
    request is handled at a time; requests interleaved at an [await] in one
    isolate, which would share [stateCache], are outside the model. *)

From stdpp Require Import gmap strings list pretty.
From Stdlib Require Import ZArith.

Local Open Scope string_scope.
Local Open Scope Z_scope.

(** ** JavaScript values *)

(** A number is seen by the worker through two operations only: the boolean
    test [!x] and the conversion to a string (property key, template
    literal).  It is recorded as the results of these two. *)
Record Number := { num_truthy : bool; num_text : string }.

(** What [JSON.parse] produces for a document.  The properties of an object
    are listed in document order; a later duplicate key overrides an earlier
    one. *)
#[warnings="-register-all"] Inductive Json : Type :=
| JNull
| JBool (b : bool)
| JNum (n : Number)
| JStr (s : string)
| JArr (items : list Json)
| JObj (props : list (string * Json)).

(** The values that reach the worker's variables: [undefined], parsed JSON,
    and the members every plain object inherits from [Object.prototype]. *)
Inductive Value : Type :=
| Undefined
| Parsed (j : Json)
| Inherited (name : string).

(** The property names of [Object.prototype]; each holds a function, except
    [__proto__], an accessor that reads the prototype object itself. *)
Definition object_prototype : list string :=
  [ "constructor"; "__defineGetter__"; "__defineSetter__"; "hasOwnProperty";
    "__lookupGetter__"; "__lookupSetter__"; "isPrototypeOf";
    "propertyIsEnumerable"; "toString"; "valueOf"; "__proto__";
    "toLocaleString" ].

(** Own property [k] of a parsed object: the last binding of [k]. *)
Fixpoint own (props : list (string * Json)) (k : string) : option Json :=
  match props with
  | [] => None
  | (k', v) :: rest =>
      match own rest k with
      | Some w => Some w
      | None => if String.eqb k' k then Some v else None
      end
  end.

(** ToBoolean. *)
Definition truthy_json (j : Json) : bool :=
  match j with
  | JNull => false
  | JBool b => b
  | JNum n => num_truthy n
  | JStr s => negb (String.eqb s EmptyString)
  | JArr _ | JObj _ => true
  end.

Definition truthy (v : Value) : bool :=
  match v with
  | Undefined => false
  | Parsed j => truthy_json j
  | Inherited _ => true
  end.

(** ToString, as applied to a property key and inside a template literal.
    [None] stands for the TypeError raised on an object whose own [toString]
    property hides the inherited method (a parsed value is never callable,
    and the inherited [valueOf] returns the object itself).  An array is
    joined with commas, [null] elements giving the empty string. *)
Fixpoint to_string (j : Json) : option string :=
  match j with
  | JNull => Some "null"
  | JBool b => Some (if b then "true" else "false")
  | JNum n => Some (num_text n)
  | JStr s => Some s
  | JArr items =>
      let element (x : Json) :=
        match x with JNull => Some EmptyString | _ => to_string x end in
      (fix join (l : list Json) : option string :=
         match l with
         | [] => Some EmptyString
         | [x] => element x
         | x :: rest =>
             match element x, join rest with
             | Some s, Some t => Some (s ++ "," ++ t)
             | _, _ => None
             end
         end) items
  | JObj props =>
      match own props "toString" with
      | Some _ => None
      | None => Some "[object Object]"
      end
  end.

(** ** Thrown errors and the monad of the worker *)

Record Error := { message : string }.

(** A request sent to https://api.linear.app/graphql: the Authorization
    header and the variables of the operation. *)
Inductive Call : Type :=
| WorkflowStatesQuery (apiKey : string)
| IssueUpdateMutation (apiKey : string) (id : Value) (stateId : Value).

(** The state of the isolate: the module variable [stateCache], a plain
    object from state name to state id ([None] is [null]), and the requests
    sent to Linear, oldest first. *)
Record World := { stateCache : option (gmap string string); calls : list Call }.

Definition M (A : Type) : Type := World -> (Error + A) * World.

Definition ret {A} (a : A) : M A := fun w => (inr a, w).
Definition throw {A} (msg : string) : M A := fun w => (inl {| message := msg |}, w).
Definition bind {A B} (m : M A) (k : A -> M B) : M B :=
  fun w => match m w with
           | (inl e, w') => (inl e, w')
           | (inr a, w') => k a w'
           end.
Definition try_catch {A} (m : M A) (handler : Error -> M A) : M A :=
  fun w => match m w with
           | (inl e, w') => handler e w'
           | (inr a, w') => (inr a, w')
           end.

Notation "'let*' x := m 'in' k" := (bind m (fun x => k))
  (at level 10, x name, m at level 100, k at level 200).

Definition get_stateCache : M (option (gmap string string)) :=
  fun w => (inr (stateCache w), w).
Definition set_stateCache (c : option (gmap string string)) : M unit :=
  fun w => (inr tt, {| stateCache := c; calls := calls w |}).
Definition send (c : Call) : M unit :=
  fun w => (inr tt, {| stateCache := stateCache w; calls := calls w ++ [c] |}).

(** ** Linear's GraphQL endpoint *)

(** A workflow state as the query selects it. *)
Record WorkflowState := { id : string; name : string }.

(** The [issueUpdate] payload as the mutation selects it. *)
Record IssueUpdatePayload := { success : bool; issue : Json }.

(** What one POST to the endpoint comes back with.  A body that passes the
    [data.errors] test is taken to have the shape the operation selects. *)
Inductive Reply (A : Type) : Type :=
| Rejected (reason : string)      (* fetch() rejects with this message *)
| NotOk (http_status : Z)         (* response.ok is false *)
| NotJson (reason : string)       (* response.json() rejects with this message *)
| Errors (serialized : string)    (* data.errors is truthy; its JSON.stringify *)
| Data (d : A).                   (* data.errors is falsy; data.data holds d *)
Arguments Rejected {A}.
Arguments NotOk {A}.
Arguments NotJson {A}.
Arguments Errors {A}.
Arguments Data {A}.

(** Linear, as far as one inbound request can observe it: each of the two
    operations is sent at most once per request. *)
Record Linear := {
  workflowStates : string -> Reply (list WorkflowState);
  issueUpdate : string -> Value -> Value -> Reply IssueUpdatePayload
}.

(** The tail shared by [getStateMapping] and [updateIssueState]: the checks
    made on the response of [fetch]. *)
Definition graphql {A} (r : Reply A) : M A :=
  match r with
  | Rejected reason => throw reason
  | NotOk st => throw ("Linear API error: " ++ pretty st)
  | NotJson reason => throw reason
  | Errors serialized => throw ("Linear GraphQL error: " ++ serialized)
  | Data d => ret d
  end.

(** ** The worker *)

Definition corsHeaders : list (string * string) :=
  [ ("Access-Control-Allow-Origin", "*");
    ("Access-Control-Allow-Methods", "GET, POST, OPTIONS");
    ("Access-Control-Allow-Headers", "Content-Type") ].

(** The body handed to [new Response]: a string, or the argument of
    [JSON.stringify]. *)
Inductive Content : Type :=
| Text (s : string)
| Stringify (j : Json).

Record Response := {
  status : Z;
  headers : list (string * string);
  body : option Content
}.

(** The inbound request: [request.method], the path of [request.url], and
    what [request.json()] settles to, a rejection message or the parsed
    document. *)
Record Request := {
  method : string;
  pathname : string;
  json : string + Json
}.

Record Env := { LINEAR_API_KEY : option string }.

(** Assignment [o[k] = v] on the cache object.  Writing [__proto__] runs the
    inherited setter, which ignores a string. *)
Definition set_property (o : gmap string string) (k v : string) : gmap string string :=
  if String.eqb k "__proto__" then o else <[k := v]> o.

(** Lookup [o[k]] on the cache object: own properties first, then
    [Object.prototype]. *)
Definition get_property (o : gmap string string) (k : string) : Value :=
  match o !! k with
  | Some v => Parsed (JStr v)
  | None => if bool_decide (k ∈ object_prototype) then Inherited k else Undefined
  end.

(** The object [states.forEach] fills, starting from [{}]. *)
Definition state_index (states : list WorkflowState) : gmap string string :=
  foldl (fun o state => set_property o (name state) (id state)) ∅ states.

(** [const { issueId, targetState, targetStateId, order } = body]. *)
Record Fields := {
  issueId : Value;
  targetState : Value;
  targetStateId : Value;
  order : Value
}.

Definition property (b : Json) (k : string) : Value :=
  match b with
  | JObj props => match own props k with Some v => Parsed v | None => Undefined end
  | _ => Undefined
  end.

(** Destructuring throws on [null]; on a boolean, number, string or array
    the four names are not found and come out [undefined]; on an object
    they are read as own properties ([Object.prototype] has none of the
    four). *)
Definition destructure (b : Json) : M Fields :=
  match b with
  | JNull => throw "Cannot destructure property 'issueId' of 'body' as it is null."
  | _ => ret {| issueId := property b "issueId";
                targetState := property b "targetState";
                targetStateId := property b "targetStateId";
                order := property b "order" |}
  end.

Definition request_json (request : Request) : M Json :=
  match json request with
  | inl reason => throw reason
  | inr b => ret b
  end.

(** ToString of [targetState], for the property key and the template
    literal of the 404 message.  A member of [Object.prototype] is a native
    function, printed as V8 prints it, or the prototype object. *)
Definition string_of (v : Value) : M string :=
  match v with
  | Undefined => ret "undefined"
  | Parsed j =>
      match to_string j with
      | Some s => ret s
      | None => throw "Cannot convert object to primitive value"
      end
  | Inherited n =>
      if String.eqb n "__proto__" then ret "[object Object]"
      else ret ("function " ++ (if String.eqb n "constructor" then "Object" else n)
                ++ "() { [native code] }")
  end.

(** The test [order && order.length > 0].  Its boolean only selects a
    [console.log]; what is kept is whether the comparison throws: [> 0]
    converts a [length] that is an object or an array to a primitive, which
    is a TypeError under the conditions given at [to_string] (the inherited
    [valueOf] returns the object itself).  Only an object can hold such a
    [length]: that of a string or an array is a number. *)
Definition order_guard (order : Value) : M unit :=
  match order with
  | Parsed (JObj props) =>
      match own props "length" with
      | Some (JObj _ as len) | Some (JArr _ as len) =>
          match to_string len with
          | Some _ => ret tt
          | None => throw "Cannot convert object to primitive value"
          end
      | _ => ret tt
      end
  | _ => ret tt
  end.

Definition double_quote : string := String (Ascii.ascii_of_nat 34) EmptyString.

(** A response whose body is [JSON.stringify(j)], with the CORS headers and
    the JSON content type. *)
Definition json_response (st : Z) (j : Json) : Response :=
  {| status := st;
     headers := corsHeaders ++ [("Content-Type", "application/json")];
     body := Some (Stringify j) |}.

Definition error_response (st : Z) (msg : string) : Response :=
  json_response st (JObj [("error", JStr msg)]).

Section Worker.

Variable linear : Linear.

Definition getStateMapping (apiKey : string) : M (gmap string string) :=
  let* cached := get_stateCache in
  match cached with
  | Some o => ret o
  | None =>
      let* _ := send (WorkflowStatesQuery apiKey) in
      let* states := graphql (workflowStates linear apiKey) in
      let* _ := set_stateCache (Some (state_index states)) in
      ret (state_index states)
  end.

Definition updateIssueState (apiKey : string) (issueId stateId : Value)
  : M IssueUpdatePayload :=
  let* _ := send (IssueUpdateMutation apiKey issueId stateId) in
  graphql (issueUpdate linear apiKey issueId stateId).

Definition handleOptions : Response :=
  {| status := 204; headers := corsHeaders; body := None |}.

Definition handleUpdate (request : Request) (apiKey : string) : M Response :=
  try_catch
    (let* b := request_json request in
     let* f := destructure b in
     if negb (truthy (issueId f)) || negb (truthy (targetState f)) then
       ret (error_response 400 "Missing issueId or targetState")
     else
       let update (stateId : Value) : M Response :=
         let* result := updateIssueState apiKey (issueId f) stateId in
         let* _ := order_guard (order f) in
         ret (json_response 200
                (JObj [("success", JBool true); ("issue", issue result)])) in
       if negb (truthy (targetStateId f)) then
         let* stateMapping := getStateMapping apiKey in
         let* k := string_of (targetState f) in
         let stateId := get_property stateMapping k in
         if negb (truthy stateId) then
           ret (error_response 404
                  ("State " ++ double_quote ++ k ++ double_quote ++ " not found"))
         else update stateId
       else update (targetStateId f))
    (fun error => ret (error_response 500 (message error))).

Definition fetch (request : Request) (env : Env) : M Response :=
  if String.eqb (method request) "OPTIONS" then ret handleOptions
  else
    match LINEAR_API_KEY env with
    | None => ret (error_response 500 "LINEAR_API_KEY not configured")
    | Some apiKey =>
        if String.eqb apiKey EmptyString then
          ret (error_response 500 "LINEAR_API_KEY not configured")
        else
          let* _ := set_stateCache None in
          if String.eqb (pathname request) "/update"
             && String.eqb (method request) "POST" then
            handleUpdate request apiKey
          else if String.eqb (pathname request) "/health"
                  && String.eqb (method request) "GET" then
            ret (json_response 200 (JObj [("status", JStr "ok")]))
          else
            ret {| status := 404; headers := corsHeaders;
                   body := Some (Text "Not Found") |}
    end.

End Worker.

(** ** Observations on an outcome *)

Definition Outcome : Type := (Error + Response) * World.

Definition response_of (o : Outcome) : option Response :=
  match fst o with inr r => Some r | inl _ => None end.

Definition status_of (o : Outcome) : option Z := status <$> response_of o.

(** The requests sent to Linear while going from world [w] to outcome [o]. *)
Definition sent (w : World) (o : Outcome) : list Call :=
  drop (length (calls w)) (calls (snd o)).

Definition post_update (request : Request) : Prop :=
  method request = "POST" /\ pathname request = "/update".

Definition configured (env : Env) (apiKey : string) : Prop :=
  LINEAR_API_KEY env = Some apiKey /\ apiKey <> EmptyString.

Definition reset (w : World) : World := {| stateCache := None; calls := calls w |}.

(** The world after one more request to Linear. *)
Definition record (w : World) (c : Call) : World :=
  {| stateCache := stateCache w; calls := calls w ++ [c] |}.

(** The end of [handleUpdate], from the call of [updateIssueState] on, under
    the catch block of the handler; lemmas about the two ways of reaching it
    are stated with it. *)
Definition forward (linear : Linear) (apiKey : string) (issueId stateId order : Value)
  : M Response :=
  try_catch
    (let* result := updateIssueState linear apiKey issueId stateId in
     let* _ := order_guard order in
     ret (json_response 200
            (JObj [("success", JBool true); ("issue", issue result)])))
    (fun error => ret (error_response 500 (message error))).

(** An [order] as the dashboard sends it: left out, or an array. *)
Definition absent_or_array (order : Value) : bool :=
  match order with
  | Undefined | Parsed (JArr _) => true
  | _ => false
  end.

Definition is_mutation (c : Call) : bool :=
  match c with
  | IssueUpdateMutation _ _ _ => true
  | WorkflowStatesQuery _ => false
  end.

(** ** Sample data *)

Module Sample.

Definition todo : WorkflowState := {| id := "state-todo"; name := "Todo" |}.
Definition done : WorkflowState := {| id := "state-done"; name := "Done" |}.

(** A workspace with two states, where [issueUpdate] answers with the
    moved issue when the state id is a string and with a GraphQL error
    list otherwise. *)
Definition linear : Linear := {|
  workflowStates := fun _ => Data [todo; done];
  issueUpdate := fun _ issue_id state_id =>
    match issue_id, state_id with
    | Parsed i, Parsed (JStr s) =>
        Data {| success := true;
                issue := JObj [("id", i); ("state", JObj [("id", JStr s)])] |}
    | _, _ => Errors "[{'message':'Variable $stateId of required type String! was not provided.'}]"
    end
|}.

(** The same workspace, reporting every update as unsuccessful. *)
Definition reluctant : Linear := {|
  workflowStates := workflowStates linear;
  issueUpdate := fun _ _ _ => Data {| success := false; issue := JNull |}
|}.

(** A workspace with two states that are both named [__proto__]. *)
Definition proto_states : list WorkflowState :=
  [ {| id := "state-a"; name := "__proto__" |};
    {| id := "state-b"; name := "__proto__" |} ].
Definition proto_linear : Linear := {|
  workflowStates := fun _ => Data proto_states;
  issueUpdate := issueUpdate linear
|}.

Definition cold : World := {| stateCache := None; calls := [] |}.
Definition env : Env := {| LINEAR_API_KEY := Some "lin_api_key" |}.
Definition no_key : Env := {| LINEAR_API_KEY := None |}.

Definition update (b : Json) : Request :=
  {| method := "POST"; pathname := "/update"; json := inr b |}.
Definition health : Request :=
  {| method := "GET"; pathname := "/health"; json := inl "Unexpected end of JSON input" |}.
Definition preflight : Request :=
  {| method := "OPTIONS"; pathname := "/update"; json := inl "Unexpected end of JSON input" |}.

End Sample.

(** ** Failed replies *)

(** The message of the error that [getStateMapping] and [updateIssueState]
    throw on a reply; none on a reply that carries data. *)
Definition failure_message {A} (r : Reply A) : option string :=
  match r with
  | Rejected reason => Some reason
  | NotOk st => Some ("Linear API error: " ++ pretty st)
  | NotJson reason => Some reason
  | Errors serialized => Some ("Linear GraphQL error: " ++ serialized)
  | Data _ => None
  end.

Module Faulty.

(** Linear behind a gateway that answers 503 to the status query. *)
Definition no_states : Linear := {|
  workflowStates := fun _ => NotOk 503;
  issueUpdate := issueUpdate Sample.linear
|}.

(** Linear answering the mutation with a GraphQL error list. *)
Definition no_update : Linear := {|
  workflowStates := workflowStates Sample.linear;
  issueUpdate := fun _ _ _ => Errors "[{'message':'Entity not found: Issue'}]"
|}.

(** A workspace where the state named Done comes twice. *)
Definition twice_done : Linear := {|
  workflowStates := fun _ =>
    Data [ {| id := "state-old"; name := "Done" |}; Sample.todo;
           {| id := "state-new"; name := "Done" |} ];
  issueUpdate := issueUpdate Sample.linear
|}.

Definition warm : World :=
  {| stateCache := Some (state_index [Sample.todo]);
     calls := [WorkflowStatesQuery "lin_api_key"] |}.

End Faulty.

(** ** What one request may send and leave behind *)

(** The requests one inbound request can cause: nothing, the status query,
    the mutation, or the status query followed by the mutation; all under
    the key [apiKey], the mutation with a truthy issue id and state id. *)
Definition traffic_shape (apiKey : string) (l : list Call) : Prop :=
  l = [] \/ l = [WorkflowStatesQuery apiKey]
  \/ exists i s, truthy i = true /\ truthy s = true
       /\ (l = [IssueUpdateMutation apiKey i s]
           \/ l = [WorkflowStatesQuery apiKey; IssueUpdateMutation apiKey i s]).

(** The cache a request leaves behind, given what it sent: the index of the
    reply when the status query was sent and answered with data, nothing
    otherwise. *)
Definition cache_after (linear : Linear) (apiKey : string) (l : list Call)
  : option (gmap string string) :=
  match l, workflowStates linear apiKey with
  | WorkflowStatesQuery _ :: _, Data states => Some (state_index states)
  | _, _ => None
  end.

(** ** The router *)

Lemma eqb_string_true (a b : string) : a = b -> String.eqb a b = true.
Proof. intros ->. apply String.eqb_refl. Qed.

Lemma eqb_string_false (a b : string) : a <> b -> String.eqb a b = false.
Proof. intros H. apply String.eqb_neq. exact H. Qed.

(** C7: a request whose method is OPTIONS is answered with status 204, no
    body and the CORS headers, whatever its path and whether or not the
    credential is configured; the answer is produced before the credential
    is read and before routing, so the world is left as it was (the cache is
    not reset, nothing is sent to Linear). *)
Theorem options_preflight (linear : Linear) (request : Request) (env : Env) (w : World) :
  method request = "OPTIONS" ->
  fetch linear request env w
  = (inr {| status := 204; headers := corsHeaders; body := None |}, w).
Proof.
  intros Hm. unfold fetch. rewrite (eqb_string_true _ _ Hm). reflexivity.
Qed.

Lemma options_preflight_witness :
  fetch Sample.linear Sample.preflight Sample.no_key Sample.cold
  = (inr {| status := 204; headers := corsHeaders; body := None |}, Sample.cold).
Proof. apply (options_preflight Sample.linear Sample.preflight). reflexivity. Defined.

(** C5: without a credential (the binding is missing, or empty), every
    request whose method is not OPTIONS is answered 500 with the message
    LINEAR_API_KEY not configured, and the world is left as it was: nothing
    is sent to Linear. *)
Theorem missing_credential (linear : Linear) (request : Request) (env : Env) (w : World) :
  method request <> "OPTIONS" ->
  LINEAR_API_KEY env = None \/ LINEAR_API_KEY env = Some EmptyString ->
  fetch linear request env w
  = (inr (error_response 500 "LINEAR_API_KEY not configured"), w)
  /\ sent w (fetch linear request env w) = [].
Proof.
  intros Hm Hkey.
  assert (Hfetch : fetch linear request env w
                   = (inr (error_response 500 "LINEAR_API_KEY not configured"), w)).
  { unfold fetch. rewrite (eqb_string_false _ _ Hm).
    destruct Hkey as [-> | ->]; reflexivity. }
  split; [exact Hfetch|].
  rewrite Hfetch. unfold sent. simpl. apply drop_all.
Qed.

Lemma missing_credential_witness :
  fetch Sample.linear (Sample.update JNull) Sample.no_key Sample.cold
  = (inr (error_response 500 "LINEAR_API_KEY not configured"), Sample.cold)
  /\ sent Sample.cold (fetch Sample.linear (Sample.update JNull) Sample.no_key Sample.cold) = [].
Proof.
  apply (missing_credential Sample.linear (Sample.update JNull) Sample.no_key).
  - discriminate.
  - left. reflexivity.
Defined.

(** What the router does once the credential is there: the cache is reset,
    then the request is dispatched. *)
Lemma fetch_configured (linear : Linear) (request : Request) (env : Env)
    (apiKey : string) (w : World) :
  method request <> "OPTIONS" ->
  configured env apiKey ->
  fetch linear request env w
  = (if String.eqb (pathname request) "/update" && String.eqb (method request) "POST"
     then handleUpdate linear request apiKey
     else if String.eqb (pathname request) "/health" && String.eqb (method request) "GET"
     then ret (json_response 200 (JObj [("status", JStr "ok")]))
     else ret {| status := 404; headers := corsHeaders; body := Some (Text "Not Found") |})
    (reset w).
Proof.
  intros Hm [Hkey Hne]. unfold fetch.
  rewrite (eqb_string_false _ _ Hm), Hkey, (eqb_string_false _ _ Hne).
  reflexivity.
Qed.

Lemma fetch_update (linear : Linear) (request : Request) (env : Env)
    (apiKey : string) (w : World) :
  post_update request ->
  configured env apiKey ->
  fetch linear request env w = handleUpdate linear request apiKey (reset w).
Proof.
  intros [Hm Hp] Hc. rewrite (fetch_configured linear request env apiKey w); [|congruence|exact Hc].
  rewrite (eqb_string_true _ _ Hp), (eqb_string_true _ _ Hm). reflexivity.
Qed.

(** C2, at an input where it fails: GET /health without a credential is
    answered 500, not 200. *)
Lemma health_without_credential :
  status_of (fetch Sample.linear Sample.health Sample.no_key Sample.cold) = Some 500
  /\ response_of (fetch Sample.linear Sample.health Sample.no_key Sample.cold)
     <> Some (json_response 200 (JObj [("status", JStr "ok")])).
Proof. split; [reflexivity | discriminate]. Qed.

(** C2, amended: GET /health is answered 200 with the body status ok when
    the credential is configured; the router resets the cache and sends
    nothing to Linear. *)
Theorem health_configured (linear : Linear) (request : Request) (env : Env)
    (apiKey : string) (w : World) :
  method request = "GET" ->
  pathname request = "/health" ->
  configured env apiKey ->
  fetch linear request env w
  = (inr (json_response 200 (JObj [("status", JStr "ok")])), reset w)
  /\ sent w (fetch linear request env w) = [].
Proof.
  intros Hm Hp Hc.
  assert (Hfetch : fetch linear request env w
                   = (inr (json_response 200 (JObj [("status", JStr "ok")])), reset w)).
  { rewrite (fetch_configured linear request env apiKey w); [|congruence|exact Hc].
    rewrite Hp, Hm. reflexivity. }
  split; [exact Hfetch|].
  rewrite Hfetch. unfold sent. simpl. apply drop_all.
Qed.

Lemma health_configured_witness :
  fetch Sample.linear Sample.health Sample.env Sample.cold
  = (inr (json_response 200 (JObj [("status", JStr "ok")])), reset Sample.cold)
  /\ sent Sample.cold (fetch Sample.linear Sample.health Sample.env Sample.cold) = [].
Proof.
  apply (health_configured Sample.linear Sample.health Sample.env "lin_api_key").
  - reflexivity.
  - reflexivity.
  - split; [reflexivity | discriminate].
Defined.

(** ** Validation of the request body *)

Lemma sent_app (w : World) (o : Outcome) (l : list Call) :
  calls (snd o) = (calls w ++ l)%list -> sent w o = l.
Proof. intros H. unfold sent. rewrite H. apply drop_app_length. Qed.

Lemma sent_reset (w : World) (o : Outcome) : sent (reset w) o = sent w o.
Proof. reflexivity. Qed.

Lemma destructure_not_null (b : Json) (w : World) :
  b <> JNull ->
  destructure b w
  = (inr {| issueId := property b "issueId";
            targetState := property b "targetState";
            targetStateId := property b "targetStateId";
            order := property b "order" |}, w).
Proof. intros H. destruct b; try reflexivity. congruence. Qed.

Lemma truthy_property_not_null (b : Json) (k : string) :
  truthy (property b k) = true -> b <> JNull.
Proof. intros H ->. discriminate. Qed.

(** The 400 branch: a body other than [null] whose [issueId] or
    [targetState] is falsy (absent, [null], [false], [0], the empty string)
    is rejected before anything is sent. *)
Lemma handleUpdate_rejects (linear : Linear) (request : Request) (apiKey : string)
    (b : Json) (w : World) :
  json request = inr b ->
  b <> JNull ->
  truthy (property b "issueId") = false \/ truthy (property b "targetState") = false ->
  handleUpdate linear request apiKey w
  = (inr (error_response 400 "Missing issueId or targetState"), w).
Proof.
  intros Hb Hnull Hfalsy.
  unfold handleUpdate, try_catch, bind, request_json. rewrite Hb. unfold ret at 1.
  rewrite (destructure_not_null b w Hnull). cbn [issueId targetState].
  destruct Hfalsy as [-> | ->]; [reflexivity|].
  rewrite orb_true_r. reflexivity.
Qed.

(** C4, at inputs where it fails: a POST /update whose body is the JSON
    document null, or is not JSON at all, has no issueId and no targetState,
    and is answered 500: [request.json()] or the destructuring throws, and
    the catch block answers. *)
Lemma unreadable_body_is_500 :
  property JNull "issueId" = Undefined
  /\ status_of (fetch Sample.linear (Sample.update JNull) Sample.env Sample.cold) = Some 500
  /\ status_of (fetch Sample.linear
                  {| method := "POST"; pathname := "/update";
                     json := inl "Unexpected end of JSON input" |}
                  Sample.env Sample.cold) = Some 500.
Proof. repeat split. Qed.

(** C4, amended: a POST /update whose body parses to a JSON value other than
    null and has no issueId or no targetState is answered 400, whatever its
    other fields, and nothing is sent to Linear. *)
Theorem missing_field_is_400 (linear : Linear) (request : Request) (env : Env)
    (apiKey : string) (b : Json) (w : World) :
  post_update request ->
  configured env apiKey ->
  json request = inr b ->
  b <> JNull ->
  property b "issueId" = Undefined \/ property b "targetState" = Undefined ->
  fetch linear request env w
  = (inr (error_response 400 "Missing issueId or targetState"), reset w)
  /\ sent w (fetch linear request env w) = [].
Proof.
  intros Hpost Hc Hb Hnull Habsent.
  assert (Hfetch : fetch linear request env w
                   = (inr (error_response 400 "Missing issueId or targetState"), reset w)).
  { rewrite (fetch_update linear request env apiKey w Hpost Hc).
    apply (handleUpdate_rejects linear request apiKey b); [exact Hb | exact Hnull |].
    destruct Habsent as [-> | ->]; [left | right]; reflexivity. }
  split; [exact Hfetch|].
  rewrite Hfetch. apply sent_app. simpl. symmetry. apply app_nil_r.
Qed.

Lemma missing_field_is_400_witness :
  fetch Sample.linear
    (Sample.update (JObj [("targetState", JStr "Done"); ("targetStateId", JStr "state-done")]))
    Sample.env Sample.cold
  = (inr (error_response 400 "Missing issueId or targetState"), reset Sample.cold)
  /\ sent Sample.cold
       (fetch Sample.linear
          (Sample.update (JObj [("targetState", JStr "Done"); ("targetStateId", JStr "state-done")]))
          Sample.env Sample.cold) = [].
Proof.
  apply (missing_field_is_400 Sample.linear _ Sample.env "lin_api_key"
           (JObj [("targetState", JStr "Done"); ("targetStateId", JStr "state-done")])).
  - split; reflexivity.
  - split; [reflexivity | discriminate].
  - reflexivity.
  - discriminate.
  - left. reflexivity.
Defined.

(** ** Forwarding the mutation *)

Lemma graphql_world {A} (r : Reply A) (w : World) : snd (graphql r w) = w.
Proof. destruct r; reflexivity. Qed.

Lemma order_guard_world (o : Value) (w : World) : snd (order_guard o w) = w.
Proof.
  unfold order_guard. repeat case_match; reflexivity.
Qed.

Lemma order_guard_array (o : Value) (w : World) :
  absent_or_array o = true -> order_guard o w = (inr tt, w).
Proof. destruct o as [|[]|]; try discriminate; reflexivity. Qed.

(** [updateIssueState] hands back the [issueUpdate] payload of the reply as
    it is, after one request to Linear. *)
Lemma updateIssueState_data (linear : Linear) (apiKey : string) (i s : Value)
    (r : IssueUpdatePayload) (w : World) :
  issueUpdate linear apiKey i s = Data r ->
  updateIssueState linear apiKey i s w = (inr r, record w (IssueUpdateMutation apiKey i s)).
Proof. intros H. unfold updateIssueState, bind, send. rewrite H. reflexivity. Qed.

Lemma forward_world (linear : Linear) (apiKey : string) (i s o : Value) (w : World) :
  snd (forward linear apiKey i s o w) = record w (IssueUpdateMutation apiKey i s).
Proof.
  unfold forward, try_catch, bind, updateIssueState, send.
  destruct (issueUpdate linear apiKey i s); try reflexivity.
  simpl. pose proof (order_guard_world o (record w (IssueUpdateMutation apiKey i s))) as Hw.
  destruct (order_guard o _) as [[e|[]] w']; simpl in *; subst; reflexivity.
Qed.

Lemma forward_never_throws (linear : Linear) (apiKey : string) (i s o : Value) (w : World) :
  exists r, fst (forward linear apiKey i s o w) = inr r.
Proof.
  unfold forward, try_catch, bind, updateIssueState, send.
  destruct (issueUpdate linear apiKey i s); simpl; eauto.
  destruct (order_guard o _) as [[e|[]] w']; simpl; eauto.
Qed.

Lemma forward_data (linear : Linear) (apiKey : string) (i s o : Value)
    (r : IssueUpdatePayload) (w : World) :
  issueUpdate linear apiKey i s = Data r ->
  absent_or_array o = true ->
  forward linear apiKey i s o w
  = (inr (json_response 200 (JObj [("success", JBool true); ("issue", issue r)])),
     record w (IssueUpdateMutation apiKey i s)).
Proof.
  intros Hr Ho. unfold forward, try_catch, bind.
  rewrite (updateIssueState_data linear apiKey i s r w Hr).
  rewrite (order_guard_array o _ Ho). reflexivity.
Qed.

(** With a truthy [targetStateId], the handler goes straight to the
    mutation. *)
Lemma handleUpdate_with_id (linear : Linear) (request : Request) (apiKey : string)
    (b : Json) (w : World) :
  json request = inr b ->
  truthy (property b "issueId") = true ->
  truthy (property b "targetState") = true ->
  truthy (property b "targetStateId") = true ->
  handleUpdate linear request apiKey w
  = forward linear apiKey (property b "issueId") (property b "targetStateId")
      (property b "order") w.
Proof.
  intros Hb Hi Ht Hs.
  unfold handleUpdate, forward, try_catch, bind, request_json. rewrite Hb. unfold ret at 1.
  rewrite (destructure_not_null b w (truthy_property_not_null b _ Hi)).
  cbn [issueId targetState targetStateId order]. rewrite Hi, Ht, Hs. reflexivity.
Qed.

(** C3, at an input where it fails: issueId and targetStateId are given,
    targetState is not, and the request is rejected with 400. *)
Lemma targetStateId_alone_is_400 :
  status_of (fetch Sample.linear
               (Sample.update (JObj [("issueId", JStr "ISSUE-1");
                                     ("targetStateId", JStr "state-done")]))
               Sample.env Sample.cold) = Some 400.
Proof. reflexivity. Qed.

(** C3, amended: targetState is required whether or not targetStateId is
    given.  A POST /update with a non-empty issueId and a non-empty
    targetStateId is rejected with 400, nothing being sent, when targetState
    is absent or empty; when targetState is there too, the supplied
    targetStateId is used for the mutation as it is, and the mutation is the
    only request sent to Linear (no status list is fetched). *)
Theorem targetState_is_required (linear : Linear) (request : Request) (env : Env)
    (apiKey : string) (b : Json) (w : World) :
  post_update request ->
  configured env apiKey ->
  json request = inr b ->
  truthy (property b "issueId") = true ->
  truthy (property b "targetStateId") = true ->
  (truthy (property b "targetState") = false ->
     fetch linear request env w
     = (inr (error_response 400 "Missing issueId or targetState"), reset w)
     /\ sent w (fetch linear request env w) = [])
  /\ (truthy (property b "targetState") = true ->
       sent w (fetch linear request env w)
       = [IssueUpdateMutation apiKey (property b "issueId") (property b "targetStateId")]).
Proof.
  intros Hpost Hc Hb Hi Hs.
  rewrite (fetch_update linear request env apiKey w Hpost Hc).
  split; intros Ht.
  - rewrite (handleUpdate_rejects linear request apiKey b (reset w) Hb
               (truthy_property_not_null b _ Hi) (or_intror Ht)).
    split; [reflexivity|]. apply sent_app. simpl. symmetry. apply app_nil_r.
  - rewrite (handleUpdate_with_id linear request apiKey b (reset w) Hb Hi Ht Hs).
    rewrite <- sent_reset. apply sent_app. rewrite forward_world. reflexivity.
Qed.

Lemma targetState_is_required_witness :
  sent Sample.cold
    (fetch Sample.linear
       (Sample.update (JObj [("issueId", JStr "ISSUE-1"); ("targetState", JStr "Done");
                             ("targetStateId", JStr "state-done")]))
       Sample.env Sample.cold)
  = [IssueUpdateMutation "lin_api_key" (Parsed (JStr "ISSUE-1")) (Parsed (JStr "state-done"))].
Proof.
  apply (targetState_is_required Sample.linear _ Sample.env "lin_api_key"
           (JObj [("issueId", JStr "ISSUE-1"); ("targetState", JStr "Done");
                  ("targetStateId", JStr "state-done")]) Sample.cold);
    try reflexivity.
  - split; reflexivity.
  - split; [reflexivity | discriminate].
Defined.

(** ** Resolving the state by name *)

Lemma getStateMapping_cold (linear : Linear) (apiKey : string) (w : World) :
  stateCache w = None ->
  getStateMapping linear apiKey w
  = match workflowStates linear apiKey with
    | Data states =>
        (inr (state_index states),
         {| stateCache := Some (state_index states);
            calls := calls w ++ [WorkflowStatesQuery apiKey] |})
    | other => (inl {| message := match other with
                                  | Rejected reason | NotJson reason => reason
                                  | NotOk st => "Linear API error: " ++ pretty st
                                  | Errors e => "Linear GraphQL error: " ++ e
                                  | Data _ => EmptyString
                                  end |},
                record w (WorkflowStatesQuery apiKey))
    end.
Proof.
  intros Hc. unfold getStateMapping, bind, get_stateCache. rewrite Hc.
  unfold send. destruct (workflowStates linear apiKey); reflexivity.
Qed.

(** Without a truthy [targetStateId], on a cold cache: the status list is
    fetched, the index built and stored, and [targetState] looked up in it. *)
Lemma handleUpdate_by_name (linear : Linear) (request : Request) (apiKey : string)
    (b t : Json) (w : World) :
  json request = inr b ->
  truthy (property b "issueId") = true ->
  property b "targetState" = Parsed t ->
  truthy_json t = true ->
  truthy (property b "targetStateId") = false ->
  stateCache w = None ->
  handleUpdate linear request apiKey w
  = match workflowStates linear apiKey with
    | Data states =>
        let w' := {| stateCache := Some (state_index states);
                     calls := calls w ++ [WorkflowStatesQuery apiKey] |} in
        match to_string t with
        | Some k =>
            if truthy (get_property (state_index states) k) then
              forward linear apiKey (property b "issueId")
                (get_property (state_index states) k) (property b "order") w'
            else
              (inr (error_response 404
                      ("State " ++ double_quote ++ k ++ double_quote ++ " not found")), w')
        | None =>
            (inr (error_response 500 "Cannot convert object to primitive value"), w')
        end
    | Rejected reason | NotJson reason =>
        (inr (error_response 500 reason), record w (WorkflowStatesQuery apiKey))
    | NotOk st =>
        (inr (error_response 500 ("Linear API error: " ++ pretty st)),
         record w (WorkflowStatesQuery apiKey))
    | Errors e =>
        (inr (error_response 500 ("Linear GraphQL error: " ++ e)),
         record w (WorkflowStatesQuery apiKey))
    end.
Proof.
  intros Hb Hi Ht Htt Hs Hc.
  unfold handleUpdate, forward, try_catch, bind, request_json. rewrite Hb. unfold ret at 1.
  rewrite (destructure_not_null b w (truthy_property_not_null b _ Hi)).
  cbn [issueId targetState targetStateId order]. rewrite Hi, Ht, Hs. cbn [truthy].
  rewrite Htt. cbn [negb orb].
  rewrite (getStateMapping_cold linear apiKey w Hc).
  destruct (workflowStates linear apiKey) as [reason|st|reason|e|states]; try reflexivity.
  unfold string_of. destruct (to_string t) as [k|]; [|reflexivity].
  unfold ret at 1.
  destruct (truthy (get_property (state_index states) k)); reflexivity.
Qed.

(** The requests sent on that path: the status query, then the mutation if
    and only if the lookup gave a truthy value. *)
Lemma by_name_sent (linear : Linear) (request : Request) (apiKey : string)
    (b t : Json) (w : World) :
  json request = inr b ->
  truthy (property b "issueId") = true ->
  property b "targetState" = Parsed t ->
  truthy_json t = true ->
  truthy (property b "targetStateId") = false ->
  stateCache w = None ->
  sent w (handleUpdate linear request apiKey w)
  = WorkflowStatesQuery apiKey ::
    match workflowStates linear apiKey, to_string t with
    | Data states, Some k =>
        if truthy (get_property (state_index states) k)
        then [IssueUpdateMutation apiKey (property b "issueId")
                (get_property (state_index states) k)]
        else []
    | _, _ => []
    end.
Proof.
  intros Hb Hi Ht Htt Hs Hc. apply sent_app.
  rewrite (handleUpdate_by_name linear request apiKey b t w Hb Hi Ht Htt Hs Hc).
  destruct (workflowStates linear apiKey) as [reason|st|reason|e|states]; try reflexivity.
  destruct (to_string t) as [k|]; [|reflexivity].
  destruct (truthy (get_property (state_index states) k)); [|reflexivity].
  rewrite forward_world. simpl. rewrite <- app_assoc. reflexivity.
Qed.

(** ** The name-to-id index *)

Lemma state_index_snoc (states : list WorkflowState) (s : WorkflowState) :
  state_index (states ++ [s]) = set_property (state_index states) (name s) (id s).
Proof. unfold state_index. rewrite foldl_snoc. reflexivity. Qed.

(** The own properties of the index: every name but [__proto__] is bound to
    the id of the last state carrying it. *)
Lemma state_index_lookup (states : list WorkflowState) (n : string) :
  state_index states !! n
  = if String.eqb n "__proto__" then None
    else id <$> last (filter (fun s => name s = n) states).
Proof.
  induction states as [|s states IH] using rev_ind.
  - destruct (String.eqb n "__proto__"); reflexivity.
  - rewrite state_index_snoc, filter_app. unfold set_property.
    destruct (String.eqb (name s) "__proto__") eqn:Hproto.
    + rewrite IH. destruct (String.eqb n "__proto__") eqn:Hn; [reflexivity|].
      apply String.eqb_eq in Hproto. apply String.eqb_neq in Hn.
      rewrite filter_cons_False by congruence.
      rewrite filter_nil, app_nil_r. reflexivity.
    + destruct (decide (name s = n)) as [Heq|Hne].
      * subst n. rewrite Hproto, lookup_insert_eq.
        rewrite filter_cons_True by reflexivity.
        rewrite filter_nil, last_snoc. reflexivity.
      * rewrite lookup_insert_ne by exact Hne. rewrite IH.
        rewrite filter_cons_False by exact Hne.
        rewrite filter_nil, app_nil_r. reflexivity.
Qed.

(** Last write wins, for every name but [__proto__]: however many states
    share the name [n], [n] resolves to the id of the last of them. *)
Lemma last_write_wins (states : list WorkflowState) (n : string) (s : WorkflowState) :
  n <> "__proto__" ->
  last (filter (fun s => name s = n) states) = Some s ->
  get_property (state_index states) n = Parsed (JStr (id s)).
Proof.
  intros Hn Hlast. unfold get_property.
  rewrite state_index_lookup, (eqb_string_false _ _ Hn), Hlast. reflexivity.
Qed.

Lemma unknown_name (states : list WorkflowState) (n : string) :
  (forall s, s ∈ states -> name s <> n) ->
  get_property (state_index states) n
  = if bool_decide (n ∈ object_prototype) then Inherited n else Undefined.
Proof.
  intros Hfresh. unfold get_property. rewrite state_index_lookup.
  destruct (String.eqb n "__proto__"); [reflexivity|].
  replace (filter (fun s => name s = n) states) with (@nil WorkflowState); [reflexivity|].
  symmetry. induction states as [|s states IH]; [reflexivity|].
  rewrite filter_cons_False by (apply Hfresh; left).
  apply IH. intros s' Hs'. apply Hfresh. right. exact Hs'.
Qed.

(** C8, at an input where the code fails it: two states share the name
    [__proto__]; the index built by [getStateMapping] has no entry for that
    name, which reads as the prototype object instead of the id of the
    second state.  (For every other name, [last_write_wins] holds.) *)
Theorem proto_name_is_not_indexed :
  exists o w,
    getStateMapping Sample.proto_linear "lin_api_key" Sample.cold = (inr o, w)
    /\ o = state_index Sample.proto_states
    /\ o !! "__proto__" = None
    /\ get_property o "__proto__" = Inherited "__proto__"
    /\ get_property o "__proto__" <> Parsed (JStr "state-b").
Proof.
  eexists _, _. split; [reflexivity|]. split; [reflexivity|].
  split; [apply state_index_lookup|]. split; [reflexivity|]. discriminate.
Qed.

(** ** Unknown state names *)

(** The 404 branch: a [targetState] string that names neither a fetched
    state nor a member of [Object.prototype] is answered 404, and the status
    query is the only request sent. *)
Lemma unknown_state_is_404 (linear : Linear) (request : Request) (env : Env)
    (apiKey t : string) (b : Json) (states : list WorkflowState) (w : World) :
  post_update request ->
  configured env apiKey ->
  json request = inr b ->
  truthy (property b "issueId") = true ->
  property b "targetState" = Parsed (JStr t) ->
  t <> EmptyString ->
  truthy (property b "targetStateId") = false ->
  workflowStates linear apiKey = Data states ->
  (forall s, s ∈ states -> name s <> t) ->
  t ∉ object_prototype ->
  status_of (fetch linear request env w) = Some 404
  /\ sent w (fetch linear request env w) = [WorkflowStatesQuery apiKey].
Proof.
  intros Hpost Hc Hb Hi Ht Hne Hs Hstates Hfresh Hproto.
  assert (Htt : truthy_json (JStr t) = true).
  { simpl. rewrite (eqb_string_false _ _ Hne). reflexivity. }
  rewrite (fetch_update linear request env apiKey w Hpost Hc).
  split.
  - rewrite (handleUpdate_by_name linear request apiKey b (JStr t) (reset w)
               Hb Hi Ht Htt Hs eq_refl).
    rewrite Hstates. cbn [to_string]. cbv zeta.
    rewrite (unknown_name states t Hfresh), bool_decide_eq_false_2 by exact Hproto.
    reflexivity.
  - rewrite <- sent_reset.
    rewrite (by_name_sent linear request apiKey b (JStr t) (reset w)
               Hb Hi Ht Htt Hs eq_refl).
    rewrite Hstates. cbn [to_string].
    rewrite (unknown_name states t Hfresh), bool_decide_eq_false_2 by exact Hproto.
    reflexivity.
Qed.

(** C6, at an input where the code fails it: [targetState] is constructor,
    which is not the name of a fetched state.  The lookup on the index finds
    the member inherited from [Object.prototype], which is truthy, and the
    mutation is sent with it; the answer is not 404. *)
Theorem inherited_name_is_forwarded :
  let request := Sample.update (JObj [("issueId", JStr "ISSUE-1");
                                      ("targetState", JStr "constructor")]) in
  let outcome := fetch Sample.linear request Sample.env Sample.cold in
  workflowStates Sample.linear "lin_api_key" = Data [Sample.todo; Sample.done]
  /\ (forall s, s ∈ [Sample.todo; Sample.done] -> name s <> "constructor")
  /\ sent Sample.cold outcome
     = [WorkflowStatesQuery "lin_api_key";
        IssueUpdateMutation "lin_api_key" (Parsed (JStr "ISSUE-1")) (Inherited "constructor")]
  /\ status_of outcome = Some 500.
Proof.
  cbv zeta. split; [reflexivity|]. split.
  - intros s Hs. apply list_elem_of_In in Hs. simpl in Hs.
    destruct Hs as [<- | [<- | []]]; discriminate.
  - split; vm_compute; reflexivity.
Qed.

(** ** What the handler reads of the body *)

(** The handler sees the body through [issueId], [targetState], the
    truthiness of [targetStateId] (and its value when truthy), and the
    outcome of the test on [order]. *)
Lemma handleUpdate_congruence (linear : Linear) (request request' : Request)
    (apiKey : string) (b b' : Json) (w : World) :
  json request = inr b ->
  json request' = inr b' ->
  b <> JNull ->
  b' <> JNull ->
  property b "issueId" = property b' "issueId" ->
  property b "targetState" = property b' "targetState" ->
  truthy (property b "targetStateId") = truthy (property b' "targetStateId") ->
  (truthy (property b "targetStateId") = true ->
   property b "targetStateId" = property b' "targetStateId") ->
  (forall w', order_guard (property b "order") w' = order_guard (property b' "order") w') ->
  handleUpdate linear request apiKey w = handleUpdate linear request' apiKey w.
Proof.
  intros Hb Hb' Hnull Hnull' Hi Ht Hs Hsame Ho.
  unfold handleUpdate, try_catch, bind, request_json. rewrite Hb, Hb'.
  change (@ret Json b w) with (@inr Error Json b, w).
  change (@ret Json b' w) with (@inr Error Json b', w). cbv iota beta.
  rewrite (destructure_not_null b w Hnull), (destructure_not_null b' w Hnull').
  cbn [issueId targetState targetStateId order]. rewrite <- Hi, <- Ht, <- Hs.
  destruct (negb (truthy (property b "issueId")) || negb (truthy (property b "targetState")));
    [reflexivity|].
  destruct (truthy (property b "targetStateId")) eqn:Hsid; cbn [negb].
  - rewrite <- (Hsame eq_refl).
    destruct (updateIssueState linear apiKey _ _ w) as [[e|r] w1]; [reflexivity|].
    rewrite Ho. reflexivity.
  - destruct (getStateMapping linear apiKey w) as [[e|o] w1]; [reflexivity|].
    destruct (string_of (property b "targetState") w1) as [[e|k] w2]; [reflexivity|].
    destruct (negb (truthy (get_property o k))); [reflexivity|].
    destruct (updateIssueState linear apiKey _ _ w2) as [[e|r] w3]; [reflexivity|].
    rewrite Ho. reflexivity.
Qed.

Lemma own_app (pre post : list (string * Json)) (k : string) :
  own (pre ++ post) k = match own post k with Some v => Some v | None => own pre k end.
Proof.
  induction pre as [|[k' v] pre IH]; simpl.
  - destruct (own post k); reflexivity.
  - rewrite IH. destruct (own post k); reflexivity.
Qed.

Lemma own_insert_other (pre post : list (string * Json)) (k k' : string) (v : Json) :
  k' <> k ->
  own (pre ++ (k', v) :: post) k = own (pre ++ post) k.
Proof.
  intros Hne. rewrite !own_app. simpl.
  destruct (own post k); [reflexivity|].
  rewrite (eqb_string_false _ _ Hne). reflexivity.
Qed.

Lemma own_insert_same (pre post : list (string * Json)) (k : string) (v : Json) :
  own (pre ++ post) k = None ->
  own (pre ++ (k, v) :: post) k = Some v.
Proof.
  rewrite !own_app. simpl. destruct (own post k); [discriminate|].
  intros _. rewrite String.eqb_refl. reflexivity.
Qed.

(** C9: take a request whose body is an object without an order property,
    and add an order array to it, anywhere among its properties.  The two
    requests are answered alike, under the same Linear and from the same
    world: same response (status, headers, body, hence the same issue), same
    requests sent to Linear, same cache.  In particular the added array never
    makes the request fail. *)
Theorem order_is_ignored (linear : Linear) (m p : string)
    (pre post : list (string * Json)) (items : list Json) (env : Env) (w : World) :
  own (pre ++ post) "order" = None ->
  fetch linear {| method := m; pathname := p;
                  json := inr (JObj (pre ++ ("order", JArr items) :: post)) |} env w
  = fetch linear {| method := m; pathname := p; json := inr (JObj (pre ++ post)) |} env w.
Proof.
  intros Habsent. unfold fetch. cbn [method pathname].
  destruct (String.eqb m "OPTIONS"); [reflexivity|].
  destruct (LINEAR_API_KEY env) as [apiKey|]; [|reflexivity].
  destruct (String.eqb apiKey EmptyString); [reflexivity|].
  unfold bind, set_stateCache.
  destruct (String.eqb p "/update" && String.eqb m "POST"); [|reflexivity].
  apply (handleUpdate_congruence linear _ _ apiKey
           (JObj (pre ++ ("order", JArr items) :: post)) (JObj (pre ++ post)));
    try reflexivity; try discriminate; unfold property.
  - rewrite own_insert_other by discriminate. reflexivity.
  - rewrite own_insert_other by discriminate. reflexivity.
  - rewrite own_insert_other by discriminate. reflexivity.
  - intros _. rewrite own_insert_other by discriminate. reflexivity.
  - intros w'. rewrite (own_insert_same pre post "order" (JArr items) Habsent), Habsent.
    reflexivity.
Qed.

Lemma order_is_ignored_witness :
  fetch Sample.linear
    (Sample.update (JObj [("issueId", JStr "ISSUE-1"); ("targetState", JStr "Done");
                          ("order", JArr [JStr "ISSUE-2"; JStr "ISSUE-1"])]))
    Sample.env Sample.cold
  = fetch Sample.linear
      (Sample.update (JObj [("issueId", JStr "ISSUE-1"); ("targetState", JStr "Done")]))
      Sample.env Sample.cold.
Proof.
  apply (order_is_ignored Sample.linear "POST" "/update"
           [("issueId", JStr "ISSUE-1"); ("targetState", JStr "Done")] []
           [JStr "ISSUE-2"; JStr "ISSUE-1"] Sample.env Sample.cold).
  reflexivity.
Defined.

(** ** An empty targetStateId *)

(** C10: a POST /update whose issueId and targetState are non-empty strings
    and whose targetStateId is the empty string is handled as if
    targetStateId were absent.  The first request sent to Linear is the
    status query; the mutation follows only when the lookup of targetState
    in the index built from the reply gives a truthy value, and it carries
    that value as state id; no mutation carries the empty string as state
    id; and the same request with targetStateId left out has the same
    outcome. *)
Theorem empty_targetStateId_is_absent (linear : Linear) (request : Request) (env : Env)
    (apiKey i t : string) (b : Json) (w : World) :
  post_update request ->
  configured env apiKey ->
  json request = inr b ->
  property b "issueId" = Parsed (JStr i) ->
  i <> EmptyString ->
  property b "targetState" = Parsed (JStr t) ->
  t <> EmptyString ->
  property b "targetStateId" = Parsed (JStr EmptyString) ->
  sent w (fetch linear request env w)
  = WorkflowStatesQuery apiKey ::
    match workflowStates linear apiKey with
    | Data states =>
        if truthy (get_property (state_index states) t)
        then [IssueUpdateMutation apiKey (Parsed (JStr i))
                (get_property (state_index states) t)]
        else []
    | _ => []
    end
  /\ (forall k j, IssueUpdateMutation k j (Parsed (JStr EmptyString))
                  ∉ sent w (fetch linear request env w))
  /\ (forall request' b',
        method request' = method request ->
        pathname request' = pathname request ->
        json request' = inr b' ->
        property b' "issueId" = property b "issueId" ->
        property b' "targetState" = property b "targetState" ->
        property b' "order" = property b "order" ->
        property b' "targetStateId" = Undefined ->
        fetch linear request' env w = fetch linear request env w).
Proof.
  intros Hpost Hc Hb Hi Hine Ht Htne Hs.
  assert (Hit : truthy (property b "issueId") = true).
  { rewrite Hi. simpl. rewrite (eqb_string_false _ _ Hine). reflexivity. }
  assert (Htt : truthy_json (JStr t) = true).
  { simpl. rewrite (eqb_string_false _ _ Htne). reflexivity. }
  assert (Hst : truthy (property b "targetStateId") = false) by (rewrite Hs; reflexivity).
  assert (Hsent : sent w (fetch linear request env w)
                  = WorkflowStatesQuery apiKey ::
                    match workflowStates linear apiKey with
                    | Data states =>
                        if truthy (get_property (state_index states) t)
                        then [IssueUpdateMutation apiKey (Parsed (JStr i))
                                (get_property (state_index states) t)]
                        else []
                    | _ => []
                    end).
  { rewrite (fetch_update linear request env apiKey w Hpost Hc), <- sent_reset.
    rewrite (by_name_sent linear request apiKey b (JStr t) (reset w)
               Hb Hit Ht Htt Hst eq_refl).
    rewrite Hi. cbn [to_string].
    destruct (workflowStates linear apiKey); reflexivity. }
  split; [exact Hsent|]. split.
  - intros k j Hin. rewrite Hsent in Hin.
    apply elem_of_cons in Hin as [Hin|Hin]; [discriminate|].
    destruct (workflowStates linear apiKey) as [| | | |states];
      try (apply elem_of_nil in Hin; exact Hin).
    destruct (truthy (get_property (state_index states) t)) eqn:Htruthy;
      [|apply elem_of_nil in Hin; exact Hin].
    apply list_elem_of_singleton in Hin. injection Hin as _ _ Hid.
    rewrite <- Hid in Htruthy. discriminate.
  - intros request' b' Hm Hp Hb' Hi' Ht' Ho' Hs'.
    assert (Hpost' : post_update request').
    { destruct Hpost. split; congruence. }
    rewrite (fetch_update linear request env apiKey w Hpost Hc).
    rewrite (fetch_update linear request' env apiKey w Hpost' Hc).
    apply (handleUpdate_congruence linear request' request apiKey b' b);
      try assumption.
    + apply (truthy_property_not_null b' "issueId"). rewrite Hi'. exact Hit.
    + apply (truthy_property_not_null b "issueId"). exact Hit.
    + rewrite Hs', Hs. reflexivity.
    + rewrite Hs'. discriminate.
    + intros w'. rewrite Ho'. reflexivity.
Qed.

Lemma empty_targetStateId_is_absent_witness :
  sent Sample.cold
    (fetch Sample.linear
       (Sample.update (JObj [("issueId", JStr "ISSUE-1"); ("targetState", JStr "Done");
                             ("targetStateId", JStr EmptyString)]))
       Sample.env Sample.cold)
  = [WorkflowStatesQuery "lin_api_key";
     IssueUpdateMutation "lin_api_key" (Parsed (JStr "ISSUE-1")) (Parsed (JStr "state-done"))].
Proof.
  apply (empty_targetStateId_is_absent Sample.linear _ Sample.env
           "lin_api_key" "ISSUE-1" "Done"
           (JObj [("issueId", JStr "ISSUE-1"); ("targetState", JStr "Done");
                  ("targetStateId", JStr EmptyString)]) Sample.cold);
    try reflexivity; try discriminate.
  - split; reflexivity.
  - split; [reflexivity | discriminate].
Defined.

(** ** The answer to a successful mutation *)

Lemma handleUpdate_null (linear : Linear) (request : Request) (apiKey : string) (w : World) :
  json request = inr JNull ->
  handleUpdate linear request apiKey w
  = (inr (error_response 500
            "Cannot destructure property 'issueId' of 'body' as it is null."), w).
Proof. intros Hb. unfold handleUpdate, try_catch, bind, request_json. rewrite Hb. reflexivity. Qed.

Lemma response_of_inr (r : Response) (w : World) : response_of (inr r, w) = Some r.
Proof. reflexivity. Qed.

(** C1, at an input where it fails: Linear reports the update as
    unsuccessful, and the response still says success true. *)
Lemma success_is_constant :
  issueUpdate Sample.reluctant "lin_api_key" (Parsed (JStr "ISSUE-1"))
    (Parsed (JStr "state-done"))
  = Data {| success := false; issue := JNull |}
  /\ response_of
       (fetch Sample.reluctant
          (Sample.update (JObj [("issueId", JStr "ISSUE-1"); ("targetState", JStr "Done")]))
          Sample.env Sample.cold)
     = Some (json_response 200 (JObj [("success", JBool true); ("issue", JNull)])).
Proof. split; vm_compute; reflexivity. Qed.

(** C1, amended: [updateIssueState] returns the issueUpdate result of Linear
    as it is, success flag included.  Then, for a POST /update whose order is
    absent or an array and whose mutation Linear answers with a result, the
    response is 200, its issue is the issue of that result, unchanged, and
    its success field is the constant true, whatever flag Linear reported. *)
Theorem mutation_answer (linear : Linear) (request : Request) (env : Env)
    (apiKey : string) (b : Json) (w : World) (i s : Value) (r : IssueUpdatePayload) :
  post_update request ->
  configured env apiKey ->
  json request = inr b ->
  absent_or_array (property b "order") = true ->
  last (sent w (fetch linear request env w)) = Some (IssueUpdateMutation apiKey i s) ->
  issueUpdate linear apiKey i s = Data r ->
  (forall w', updateIssueState linear apiKey i s w'
              = (inr r, record w' (IssueUpdateMutation apiKey i s)))
  /\ response_of (fetch linear request env w)
     = Some (json_response 200 (JObj [("success", JBool true); ("issue", issue r)])).
Proof.
  intros Hpost Hc Hb Ho Hlast Hr.
  split; [intros w'; apply updateIssueState_data; exact Hr|].
  rewrite (fetch_update linear request env apiKey w Hpost Hc) in *.
  rewrite <- sent_reset in Hlast.
  assert (Hcase : b = JNull \/ b <> JNull) by (destruct b; auto; right; discriminate).
  destruct Hcase as [->|Hnull].
  { rewrite (handleUpdate_null linear request apiKey (reset w) Hb) in Hlast.
    unfold sent in Hlast. simpl in Hlast. rewrite drop_all in Hlast. discriminate. }
  destruct (truthy (property b "issueId")) eqn:Hi; cycle 1.
  { rewrite (handleUpdate_rejects linear request apiKey b (reset w) Hb Hnull
               (or_introl Hi)) in Hlast.
    unfold sent in Hlast. simpl in Hlast. rewrite drop_all in Hlast. discriminate. }
  destruct (truthy (property b "targetState")) eqn:Ht; cycle 1.
  { rewrite (handleUpdate_rejects linear request apiKey b (reset w) Hb Hnull
               (or_intror Ht)) in Hlast.
    unfold sent in Hlast. simpl in Hlast. rewrite drop_all in Hlast. discriminate. }
  destruct (truthy (property b "targetStateId")) eqn:Hs.
  - rewrite (handleUpdate_with_id linear request apiKey b (reset w) Hb Hi Ht Hs) in *.
    rewrite (sent_app (reset w) _ [IssueUpdateMutation apiKey (property b "issueId")
                                     (property b "targetStateId")]) in Hlast
      by (rewrite forward_world; reflexivity).
    injection Hlast as <- <-.
    rewrite (forward_data linear apiKey _ _ _ r (reset w) Hr Ho). reflexivity.
  - destruct (property b "targetState") as [|t|n] eqn:Hpt; try discriminate.
    2:{ unfold property in Hpt. repeat case_match; discriminate. }
    rewrite (by_name_sent linear request apiKey b t (reset w) Hb Hi Hpt Ht Hs eq_refl)
      in Hlast.
    rewrite (handleUpdate_by_name linear request apiKey b t (reset w) Hb Hi Hpt Ht Hs eq_refl).
    destruct (workflowStates linear apiKey) as [| | | |states]; try discriminate.
    destruct (to_string t) as [k|]; [|discriminate].
    destruct (truthy (get_property (state_index states) k)); [|discriminate].
    simpl in Hlast. injection Hlast as <- <-. cbv zeta.
    rewrite (forward_data linear apiKey _ _ _ r _ Hr Ho). reflexivity.
Qed.

Lemma mutation_answer_witness :
  response_of
    (fetch Sample.reluctant
       (Sample.update (JObj [("issueId", JStr "ISSUE-1"); ("targetState", JStr "Done");
                             ("order", JArr [JStr "ISSUE-1"])]))
       Sample.env Sample.cold)
  = Some (json_response 200 (JObj [("success", JBool true); ("issue", JNull)])).
Proof.
  apply (mutation_answer Sample.reluctant _ Sample.env "lin_api_key"
           (JObj [("issueId", JStr "ISSUE-1"); ("targetState", JStr "Done");
                  ("order", JArr [JStr "ISSUE-1"])])
           Sample.cold (Parsed (JStr "ISSUE-1")) (Parsed (JStr "state-done"))
           {| success := false; issue := JNull |}).
  - split; reflexivity.
  - split; [reflexivity | discriminate].
  - reflexivity.
  - reflexivity.
  - vm_compute. reflexivity.
  - reflexivity.
Defined.

(** ** Every request is answered *)

(** The catch block of [handleUpdate] covers its whole body, and the router
    throws nowhere: [fetch] always returns a response. *)
Lemma handleUpdate_responds (linear : Linear) (request : Request) (apiKey : string)
    (w : World) :
  exists r, fst (handleUpdate linear request apiKey w) = inr r.
Proof.
  unfold handleUpdate, try_catch.
  match goal with |- context [match ?m w with _ => _ end] => destruct (m w) as [[e|r] w'] end;
    simpl; eauto.
Qed.

Lemma fetch_responds (linear : Linear) (request : Request) (env : Env) (w : World) :
  exists r, fst (fetch linear request env w) = inr r.
Proof.
  unfold fetch.
  destruct (String.eqb (method request) "OPTIONS"); [simpl; eauto|].
  destruct (LINEAR_API_KEY env) as [apiKey|]; [|simpl; eauto].
  destruct (String.eqb apiKey EmptyString); [simpl; eauto|].
  unfold bind, set_stateCache.
  destruct (String.eqb (pathname request) "/update" && String.eqb (method request) "POST").
  - apply handleUpdate_responds.
  - destruct (String.eqb (pathname request) "/health" && String.eqb (method request) "GET");
      simpl; eauto.
Qed.

(** ** An order that is not an array *)

(** Why the statements on [order] speak of arrays: an object whose length
    is itself an object with a toString property makes the comparison
    [order.length > 0] throw, after the mutation has been sent, and the
    request that would have been answered 200 is answered 500. *)
Example object_order_fails_late :
  let body := [("issueId", JStr "ISSUE-1"); ("targetState", JStr "Done")] in
  let odd := JObj [("length", JObj [("toString", JNull)])] in
  status_of (fetch Sample.linear (Sample.update (JObj body)) Sample.env Sample.cold)
  = Some 200
  /\ status_of (fetch Sample.linear (Sample.update (JObj (body ++ [("order", odd)])))
                  Sample.env Sample.cold)
     = Some 500
  /\ sent Sample.cold
       (fetch Sample.linear (Sample.update (JObj (body ++ [("order", odd)])))
          Sample.env Sample.cold)
     = [WorkflowStatesQuery "lin_api_key";
        IssueUpdateMutation "lin_api_key" (Parsed (JStr "ISSUE-1"))
          (Parsed (JStr "state-done"))].
Proof. cbv zeta. repeat split; vm_compute; reflexivity. Qed.

(** * Further properties of the worker *)

(** ** The paths through the handler *)

Lemma graphql_failure {A} (r : Reply A) (msg : string) (w : World) :
  failure_message r = Some msg ->
  graphql r w = (inl {| message := msg |}, w).
Proof. destruct r; simpl; intros H; try discriminate; injection H as <-; reflexivity. Qed.

Lemma failure_message_none {A} (r : Reply A) :
  failure_message r = None -> exists d, r = Data d.
Proof. destruct r; simpl; intros H; try discriminate. eauto. Qed.

Lemma property_parsed (b : Json) (k : string) :
  truthy (property b k) = true ->
  exists t, property b k = Parsed t /\ truthy_json t = true.
Proof.
  unfold property. destruct b; try discriminate.
  destruct (own props k) as [t|]; [|discriminate]. simpl. eauto.
Qed.

Lemma handleUpdate_unreadable (linear : Linear) (request : Request) (apiKey reason : string)
    (w : World) :
  json request = inl reason ->
  handleUpdate linear request apiKey w = (inr (error_response 500 reason), w).
Proof. intros Hb. unfold handleUpdate, try_catch, bind, request_json. rewrite Hb. reflexivity. Qed.

Lemma forward_failure (linear : Linear) (apiKey : string) (i s o : Value) (msg : string)
    (w : World) :
  failure_message (issueUpdate linear apiKey i s) = Some msg ->
  forward linear apiKey i s o w
  = (inr (error_response 500 msg), record w (IssueUpdateMutation apiKey i s)).
Proof.
  intros Hr. unfold forward, updateIssueState, try_catch, bind, send. cbv beta iota.
  rewrite (graphql_failure _ msg _ Hr). reflexivity.
Qed.

(** The mutation is sent, and the answer is the 200 with the issue of the
    reply, or a 500. *)
Lemma forward_answer (linear : Linear) (apiKey : string) (i s o : Value) (w : World) :
  exists r,
    forward linear apiKey i s o w = (inr r, record w (IssueUpdateMutation apiKey i s))
    /\ ((exists p, issueUpdate linear apiKey i s = Data p
                   /\ r = json_response 200
                            (JObj [("success", JBool true); ("issue", issue p)]))
        \/ exists msg, r = error_response 500 msg).
Proof.
  destruct (failure_message (issueUpdate linear apiKey i s)) as [msg|] eqn:Hf.
  - eexists. split; [apply (forward_failure _ _ _ _ _ msg); exact Hf|]. right. eauto.
  - destruct (failure_message_none _ Hf) as [p Hp].
    unfold forward, try_catch, bind.
    rewrite (updateIssueState_data linear apiKey i s p w Hp).
    pose proof (order_guard_world o (record w (IssueUpdateMutation apiKey i s))) as Hw.
    destruct (order_guard o _) as [[e|[]] w']; simpl in Hw; subst w'.
    + eexists. split; [reflexivity|]. right. eauto.
    + eexists. split; [reflexivity|]. left. eauto.
Qed.

(** The five ways through [handleUpdate] on an empty cache: to prove a
    property of its outcome, prove it of each. *)
Lemma handleUpdate_cases (linear : Linear) (request : Request) (apiKey : string)
    (w : World) (P : Outcome -> Prop) :
  stateCache w = None ->
  (forall reason, json request = inl reason ->
     P (inr (error_response 500 reason), w)) ->
  (json request = inr JNull ->
     P (inr (error_response 500
               "Cannot destructure property 'issueId' of 'body' as it is null."), w)) ->
  (forall b, json request = inr b -> b <> JNull ->
     truthy (property b "issueId") = false \/ truthy (property b "targetState") = false ->
     P (inr (error_response 400 "Missing issueId or targetState"), w)) ->
  (forall b, json request = inr b ->
     truthy (property b "issueId") = true ->
     truthy (property b "targetState") = true ->
     truthy (property b "targetStateId") = true ->
     P (forward linear apiKey (property b "issueId") (property b "targetStateId")
          (property b "order") w)) ->
  (forall b t, json request = inr b ->
     truthy (property b "issueId") = true ->
     property b "targetState" = Parsed t ->
     truthy_json t = true ->
     truthy (property b "targetStateId") = false ->
     P (match workflowStates linear apiKey with
        | Data states =>
            let w' := {| stateCache := Some (state_index states);
                         calls := calls w ++ [WorkflowStatesQuery apiKey] |} in
            match to_string t with
            | Some k =>
                if truthy (get_property (state_index states) k) then
                  forward linear apiKey (property b "issueId")
                    (get_property (state_index states) k) (property b "order") w'
                else
                  (inr (error_response 404
                          ("State " ++ double_quote ++ k ++ double_quote ++ " not found")), w')
            | None =>
                (inr (error_response 500 "Cannot convert object to primitive value"), w')
            end
        | Rejected reason | NotJson reason =>
            (inr (error_response 500 reason), record w (WorkflowStatesQuery apiKey))
        | NotOk st =>
            (inr (error_response 500 ("Linear API error: " ++ pretty st)),
             record w (WorkflowStatesQuery apiKey))
        | Errors e =>
            (inr (error_response 500 ("Linear GraphQL error: " ++ e)),
             record w (WorkflowStatesQuery apiKey))
        end)) ->
  P (handleUpdate linear request apiKey w).
Proof.
  intros Hc Hbad Hnull Hmissing Hid Hname.
  destruct (json request) as [reason|b] eqn:Hb.
  { rewrite (handleUpdate_unreadable linear request apiKey reason w Hb). auto. }
  assert (Hcase : b = JNull \/ b <> JNull) by (destruct b; auto; right; discriminate).
  destruct Hcase as [->|Hnn].
  { rewrite (handleUpdate_null linear request apiKey w Hb). auto. }
  destruct (truthy (property b "issueId")) eqn:Hi; cycle 1.
  { rewrite (handleUpdate_rejects linear request apiKey b w Hb Hnn (or_introl Hi)). eauto. }
  destruct (truthy (property b "targetState")) eqn:Ht; cycle 1.
  { rewrite (handleUpdate_rejects linear request apiKey b w Hb Hnn (or_intror Ht)). eauto. }
  destruct (truthy (property b "targetStateId")) eqn:Hs.
  - rewrite (handleUpdate_with_id linear request apiKey b w Hb Hi Ht Hs). eauto.
  - destruct (property_parsed b "targetState" Ht) as (t & Hpt & Htt).
    rewrite (handleUpdate_by_name linear request apiKey b t w Hb Hi Hpt Htt Hs Hc). eauto.
Qed.

(** ** Invariants of the handler on an empty cache *)

Lemma handleUpdate_answer (linear : Linear) (request : Request) (apiKey : string)
    (w : World) :
  stateCache w = None ->
  exists r, fst (handleUpdate linear request apiKey w) = inr r
    /\ ((exists j, r = json_response 200 (JObj [("success", JBool true); ("issue", j)]))
        \/ exists st msg, In st [400; 404; 500] /\ r = error_response st msg).
Proof.
  intros Hc. apply (handleUpdate_cases linear request apiKey w); try exact Hc.
  - intros reason _. eexists. split; [reflexivity|]. right. exists 500, reason. simpl. auto.
  - intros _. eexists. split; [reflexivity|]. right. eexists 500, _. simpl. auto.
  - intros b _ _ _. eexists. split; [reflexivity|]. right. eexists 400, _. simpl. auto.
  - intros b _ _ _ _.
    destruct (forward_answer linear apiKey (property b "issueId")
                (property b "targetStateId") (property b "order") w)
      as (r & -> & [(p & _ & ->) | (msg & ->)]);
      eexists; (split; [reflexivity|]); [left; eauto | right; exists 500, msg; simpl; auto].
  - intros b t _ _ _ _ _.
    destruct (workflowStates linear apiKey) as [reason|st|reason|e|states];
      try (eexists; split; [reflexivity|]; right; eexists 500, _; simpl; auto).
    cbv zeta. destruct (to_string t) as [k|];
      [|eexists; split; [reflexivity|]; right; eexists 500, _; simpl; auto].
    destruct (truthy (get_property (state_index states) k));
      [|eexists; split; [reflexivity|]; right; eexists 404, _; simpl; auto].
    match goal with |- context [forward ?l ?k ?i ?s ?o ?w] =>
      destruct (forward_answer l k i s o w) as (r & -> & [(p & _ & ->) | (msg & ->)]) end;
      eexists; (split; [reflexivity|]); [left; eauto | right; exists 500, msg; simpl; auto].
Qed.

(** The world the handler leaves: the requests it sent have one of the four
    shapes, and the cache is the one that goes with them. *)
Lemma handleUpdate_world (linear : Linear) (request : Request) (apiKey : string)
    (w : World) :
  stateCache w = None ->
  exists l, snd (handleUpdate linear request apiKey w)
            = {| stateCache := cache_after linear apiKey l; calls := calls w ++ l |}
    /\ traffic_shape apiKey l.
Proof.
  intros Hc.
  assert (Hw : w = {| stateCache := None; calls := calls w ++ [] |}).
  { destruct w as [c l]. simpl in *. subst c. rewrite app_nil_r. reflexivity. }
  apply (handleUpdate_cases linear request apiKey w); try exact Hc.
  - intros reason _. exists []. split; [exact Hw | left; reflexivity].
  - intros _. exists []. split; [exact Hw | left; reflexivity].
  - intros b _ _ _. exists []. split; [exact Hw | left; reflexivity].
  - intros b _ Hi _ Hs. rewrite forward_world.
    exists [IssueUpdateMutation apiKey (property b "issueId") (property b "targetStateId")].
    split.
    + unfold record. rewrite Hc. reflexivity.
    + right. right. eexists _, _. split; [exact Hi|]. split; [exact Hs|]. left. reflexivity.
  - intros b t _ Hi _ _ _.
    destruct (workflowStates linear apiKey) as [reason|st|reason|e|states] eqn:Hreply;
      try (exists [WorkflowStatesQuery apiKey]; split;
           [unfold record, cache_after; rewrite Hc, Hreply; reflexivity
           | right; left; reflexivity]).
    cbv zeta. destruct (to_string t) as [k|];
      [|exists [WorkflowStatesQuery apiKey]; split;
        [unfold cache_after; rewrite Hreply; reflexivity | right; left; reflexivity]].
    destruct (truthy (get_property (state_index states) k)) eqn:Hk;
      [|exists [WorkflowStatesQuery apiKey]; split;
        [unfold cache_after; rewrite Hreply; reflexivity | right; left; reflexivity]].
    rewrite forward_world.
    exists [WorkflowStatesQuery apiKey;
            IssueUpdateMutation apiKey (property b "issueId")
              (get_property (state_index states) k)].
    split.
    + unfold record, cache_after. rewrite Hreply. simpl. rewrite <- app_assoc. reflexivity.
    + right. right. eexists _, _. split; [exact Hi|]. split; [exact Hk|]. right. reflexivity.
Qed.

(** ** The router, case by case *)

Lemma fetch_cases (linear : Linear) (request : Request) (env : Env) (w : World)
    (P : Outcome -> Prop) :
  (method request = "OPTIONS" -> P (inr handleOptions, w)) ->
  (method request <> "OPTIONS" ->
   LINEAR_API_KEY env = None \/ LINEAR_API_KEY env = Some EmptyString ->
   P (inr (error_response 500 "LINEAR_API_KEY not configured"), w)) ->
  (forall apiKey, configured env apiKey -> post_update request ->
   P (handleUpdate linear request apiKey (reset w))) ->
  (forall apiKey, configured env apiKey ->
   method request = "GET" -> pathname request = "/health" ->
   P (inr (json_response 200 (JObj [("status", JStr "ok")])), reset w)) ->
  (forall apiKey, configured env apiKey ->
   method request <> "OPTIONS" -> ~ post_update request ->
   ~ (method request = "GET" /\ pathname request = "/health") ->
   P (inr {| status := 404; headers := corsHeaders; body := Some (Text "Not Found") |},
      reset w)) ->
  P (fetch linear request env w).
Proof.
  intros Hoptions Hkey Hupdate Hhealth Hother. unfold fetch.
  destruct (String.eqb_spec (method request) "OPTIONS") as [Hm|Hm]; [auto|].
  destruct (LINEAR_API_KEY env) as [apiKey|] eqn:Henv; [|auto].
  destruct (String.eqb_spec apiKey EmptyString) as [->|Hne]; [auto|].
  assert (Hc : configured env apiKey) by (split; assumption).
  unfold bind, set_stateCache. fold (reset w).
  destruct (String.eqb_spec (pathname request) "/update") as [Hp|Hp];
    destruct (String.eqb_spec (method request) "POST") as [Hpost|Hpost]; cbn [andb].
  - apply (Hupdate apiKey Hc). split; assumption.
  - destruct (String.eqb_spec (pathname request) "/health") as [Hh|Hh];
      [rewrite Hp in Hh; discriminate|]. cbn [andb].
    apply (Hother apiKey Hc Hm); intros []; congruence.
  - destruct (String.eqb_spec (pathname request) "/health") as [Hh|Hh];
      destruct (String.eqb_spec (method request) "GET") as [Hg|Hg]; cbn [andb];
      try (rewrite Hpost in Hg; discriminate);
      apply (Hother apiKey Hc Hm); intros []; congruence.
  - destruct (String.eqb_spec (pathname request) "/health") as [Hh|Hh];
      destruct (String.eqb_spec (method request) "GET") as [Hg|Hg]; cbn [andb];
      try (apply (Hhealth apiKey Hc); assumption);
      apply (Hother apiKey Hc Hm); intros []; congruence.
Qed.

Lemma sent_nothing (r : Error + Response) (w : World) : sent w (r, w) = [].
Proof. unfold sent. simpl. apply drop_all. Qed.

Lemma sent_nothing_reset (r : Error + Response) (w : World) : sent w (r, reset w) = [].
Proof. unfold sent. simpl. apply drop_all. Qed.



(** X2: the worker answers every request, and its answer has one of five
    forms: the empty 204 of the preflight; the plain-text 404 of an unknown
    route; the health document; the 200 of an update, whose body holds
    success true and an issue; or a JSON document with the single field
    error, under status 400, 404 or 500. *)
Theorem answer_forms (linear : Linear) (request : Request) (env : Env) (w : World) :
  exists r, fst (fetch linear request env w) = inr r
    /\ (r = {| status := 204; headers := corsHeaders; body := None |}
        \/ r = {| status := 404; headers := corsHeaders; body := Some (Text "Not Found") |}
        \/ r = json_response 200 (JObj [("status", JStr "ok")])
        \/ (exists j, r = json_response 200 (JObj [("success", JBool true); ("issue", j)]))
        \/ exists st msg, In st [400; 404; 500] /\ r = error_response st msg).
Proof.
  apply (fetch_cases linear request env w).
  - intros _. eexists. split; [reflexivity|]. left. reflexivity.
  - intros _ _. eexists. split; [reflexivity|]. do 4 right. eexists 500, _. simpl. auto.
  - intros k _ _.
    destruct (handleUpdate_answer linear request k (reset w) eq_refl) as (r & Hr & Hform).
    exists r. split; [exact Hr|]. do 3 right. exact Hform.
  - intros k _ _ _. eexists. split; [reflexivity|]. do 2 right. left. reflexivity.
  - intros k _ _ _ _. eexists. split; [reflexivity|]. right. left. reflexivity.
Qed.



(** X5: the cache a request leaves behind.  With the credential configured,
    after a request other than OPTIONS the cache holds the index built from
    the status list of this very request, when the request fetched it and
    Linear answered with data, and is empty in every other case: nothing of
    an earlier request survives, and a failed status query caches nothing. *)
Theorem cache_after_request (linear : Linear) (request : Request) (env : Env)
    (apiKey : string) (w : World) :
  method request <> "OPTIONS" ->
  configured env apiKey ->
  stateCache (snd (fetch linear request env w))
  = cache_after linear apiKey (sent w (fetch linear request env w)).
Proof.
  intros Hm [Hkey Hne].
  apply (fetch_cases linear request env w).
  - intros H. contradiction.
  - intros _ [H|H]; rewrite Hkey in H; [discriminate|]. injection H as ->. contradiction.
  - intros k [Hk _] _. rewrite Hkey in Hk. injection Hk as <-.
    destruct (handleUpdate_world linear request apiKey (reset w) eq_refl) as (l & Hw & _).
    rewrite (sent_app w _ l) by (rewrite Hw; reflexivity).
    rewrite Hw. reflexivity.
  - intros k _ _ _. rewrite sent_nothing_reset. reflexivity.
  - intros k _ _ _ _. rewrite sent_nothing_reset. reflexivity.
Qed.

Lemma cache_after_request_witness :
  stateCache (snd (fetch Faulty.no_states
                     (Sample.update (JObj [("issueId", JStr "ISSUE-1");
                                           ("targetState", JStr "Done")]))
                     Sample.env Faulty.warm))
  = cache_after Faulty.no_states "lin_api_key"
      (sent Faulty.warm
         (fetch Faulty.no_states
            (Sample.update (JObj [("issueId", JStr "ISSUE-1"); ("targetState", JStr "Done")]))
            Sample.env Faulty.warm)).
Proof.
  apply (cache_after_request Faulty.no_states _ Sample.env "lin_api_key").
  - discriminate.
  - split; [reflexivity | discriminate].
Defined.

(** ** The two answers given before routing *)

Lemma options_like (linear : Linear) (request : Request) (env : Env) (w : World) :
  method request = "OPTIONS" ->
  fetch linear request env w = (inr handleOptions, w).
Proof. intros Hm. unfold fetch. rewrite (eqb_string_true _ _ Hm). reflexivity. Qed.

Lemma unconfigured_like (linear : Linear) (request : Request) (env : Env) (w : World) :
  method request <> "OPTIONS" ->
  LINEAR_API_KEY env = None \/ LINEAR_API_KEY env = Some EmptyString ->
  fetch linear request env w
  = (inr (error_response 500 "LINEAR_API_KEY not configured"), w).
Proof.
  intros Hm Hkey. unfold fetch. rewrite (eqb_string_false _ _ Hm).
  destruct Hkey as [-> | ->]; reflexivity.
Qed.

(** ** Independence of what came before *)

Lemma order_guard_frame (o : Value) (w w' : World) :
  fst (order_guard o w) = fst (order_guard o w').
Proof. unfold order_guard. repeat case_match; reflexivity. Qed.

Lemma forward_frame (linear : Linear) (apiKey : string) (i s o : Value) (w w' : World) :
  fst (forward linear apiKey i s o w) = fst (forward linear apiKey i s o w').
Proof.
  unfold forward, updateIssueState, try_catch, bind, send. cbv beta iota.
  destruct (issueUpdate linear apiKey i s); try reflexivity.
  cbn [graphql ret].
  pose proof (order_guard_frame o
                {| stateCache := stateCache w;
                   calls := calls w ++ [IssueUpdateMutation apiKey i s] |}
                {| stateCache := stateCache w';
                   calls := calls w' ++ [IssueUpdateMutation apiKey i s] |}) as Hfst.
  destruct (order_guard o _) as [[e|[]] w1], (order_guard o _) as [[e'|[]] w1'];
    simpl in Hfst; try discriminate; try reflexivity.
  injection Hfst as ->. reflexivity.
Qed.

Lemma forward_sent (linear : Linear) (apiKey : string) (i s o : Value) (w v : World) :
  calls v = calls w ->
  sent w (forward linear apiKey i s o v) = [IssueUpdateMutation apiKey i s].
Proof. intros Hv. apply sent_app. rewrite forward_world. simpl. rewrite Hv. reflexivity. Qed.

(** On an empty cache, the answer of the handler and the requests it sends
    do not depend on the requests sent before. *)
Lemma handleUpdate_frame (linear : Linear) (request : Request) (apiKey : string)
    (w w' : World) :
  stateCache w = None ->
  stateCache w' = None ->
  fst (handleUpdate linear request apiKey w) = fst (handleUpdate linear request apiKey w')
  /\ sent w (handleUpdate linear request apiKey w)
     = sent w' (handleUpdate linear request apiKey w').
Proof.
  intros Hc Hc'.
  apply (handleUpdate_cases linear request apiKey w); try exact Hc.
  - intros reason Hb. rewrite (handleUpdate_unreadable linear request apiKey reason w' Hb).
    rewrite !sent_nothing. auto.
  - intros Hb. rewrite (handleUpdate_null linear request apiKey w' Hb).
    rewrite !sent_nothing. auto.
  - intros b Hb Hnn Hfalsy.
    rewrite (handleUpdate_rejects linear request apiKey b w' Hb Hnn Hfalsy).
    rewrite !sent_nothing. auto.
  - intros b Hb Hi Ht Hs.
    rewrite (handleUpdate_with_id linear request apiKey b w' Hb Hi Ht Hs).
    rewrite !forward_sent by reflexivity. split; [apply forward_frame | reflexivity].
  - intros b t Hb Hi Hpt Htt Hs.
    rewrite (handleUpdate_by_name linear request apiKey b t w' Hb Hi Hpt Htt Hs Hc').
    assert (Hq : forall (r : Error + Response) (v : World) c,
               sent v (r, {| stateCache := c;
                             calls := calls v ++ [WorkflowStatesQuery apiKey] |})
               = [WorkflowStatesQuery apiKey]).
    { intros r v c. apply sent_app. reflexivity. }
    destruct (workflowStates linear apiKey) as [reason|st|reason|e|states];
      try (unfold record; rewrite !Hq; auto).
    cbv zeta. destruct (to_string t) as [k|]; [|rewrite !Hq; auto].
    destruct (truthy (get_property (state_index states) k)); [|rewrite !Hq; auto].
    split; [apply forward_frame|].
    rewrite !(sent_app _ _ [WorkflowStatesQuery apiKey;
                            IssueUpdateMutation apiKey (property b "issueId")
                              (get_property (state_index states) k)]);
      [reflexivity | |]; rewrite forward_world; simpl; rewrite <- app_assoc; reflexivity.
Qed.

(** X6: no request sees what an earlier one left.  The answer to a request
    and the requests it sends to Linear are the same from any two states of
    the isolate, whatever the cache holds and whatever was sent before: the
    status list is fetched anew by every request that resolves a name. *)
Theorem answer_ignores_history (linear : Linear) (request : Request) (env : Env)
    (w w' : World) :
  response_of (fetch linear request env w) = response_of (fetch linear request env w')
  /\ sent w (fetch linear request env w) = sent w' (fetch linear request env w').
Proof.
  apply (fetch_cases linear request env w).
  - intros Hm. rewrite (options_like linear request env w' Hm). rewrite !sent_nothing. auto.
  - intros Hm Hkey. rewrite (unconfigured_like linear request env w' Hm Hkey).
    rewrite !sent_nothing. auto.
  - intros k Hc Hpost. rewrite (fetch_update linear request env k w' Hpost Hc).
    destruct (handleUpdate_frame linear request k (reset w) (reset w') eq_refl eq_refl)
      as [Hfst Hsent].
    split; [unfold response_of; rewrite Hfst; reflexivity | exact Hsent].
  - intros k Hc Hm Hp.
    rewrite (fetch_configured linear request env k w') by (try congruence; exact Hc).
    rewrite Hp, Hm. cbn. unfold ret. rewrite !sent_nothing_reset. auto.
  - intros k Hc Hm Hupdate Hhealth.
    rewrite (fetch_configured linear request env k w' Hm Hc).
    destruct (String.eqb_spec (pathname request) "/update") as [Hp|Hp];
      destruct (String.eqb_spec (method request) "POST") as [Hpost|Hpost]; cbn [andb];
      try (exfalso; apply Hupdate; split; assumption);
      destruct (String.eqb_spec (pathname request) "/health") as [Hh|Hh];
      destruct (String.eqb_spec (method request) "GET") as [Hg|Hg]; cbn [andb];
      try (exfalso; apply Hhealth; split; assumption);
      unfold ret; rewrite !sent_nothing_reset; auto.
Qed.

(** ** The cache of [getStateMapping] *)

(** X7: [getStateMapping] queries Linear once.  Called on an empty cache
    with Linear answering data, it sends the status query, stores the index
    and returns it; a second call returns the same index without sending
    anything, whatever key it is given and whatever Linear would answer by
    then. *)
Theorem getStateMapping_queries_once (linear later : Linear) (apiKey other : string)
    (states : list WorkflowState) (w : World) :
  stateCache w = None ->
  workflowStates linear apiKey = Data states ->
  (let* first := getStateMapping linear apiKey in
   let* second := getStateMapping later other in
   ret (first, second)) w
  = (inr (state_index states, state_index states),
     {| stateCache := Some (state_index states);
        calls := calls w ++ [WorkflowStatesQuery apiKey] |}).
Proof.
  intros Hc Hreply. unfold bind at 1.
  rewrite (getStateMapping_cold linear apiKey w Hc), Hreply. reflexivity.
Qed.

Lemma getStateMapping_queries_once_witness :
  (let* first := getStateMapping Sample.linear "lin_api_key" in
   let* second := getStateMapping Faulty.no_states "another_key" in
   ret (first, second)) Sample.cold
  = (inr (state_index [Sample.todo; Sample.done], state_index [Sample.todo; Sample.done]),
     {| stateCache := Some (state_index [Sample.todo; Sample.done]);
        calls := [WorkflowStatesQuery "lin_api_key"] |}).
Proof.
  apply (getStateMapping_queries_once Sample.linear Faulty.no_states "lin_api_key"
           "another_key" [Sample.todo; Sample.done] Sample.cold); reflexivity.
Defined.

(** X8: a failed status query is not cached.  On an empty cache, when the
    reply is an HTTP error, a GraphQL error list, or cannot be read,
    [getStateMapping] throws the corresponding message after sending the
    query, the cache stays empty, and the next call sends the query again. *)
Theorem failed_query_is_not_cached (linear : Linear) (apiKey msg : string) (w : World) :
  stateCache w = None ->
  failure_message (workflowStates linear apiKey) = Some msg ->
  getStateMapping linear apiKey w
  = (inl {| message := msg |},
     {| stateCache := None; calls := calls w ++ [WorkflowStatesQuery apiKey] |})
  /\ calls (snd (getStateMapping linear apiKey (snd (getStateMapping linear apiKey w))))
     = (calls w ++ [WorkflowStatesQuery apiKey; WorkflowStatesQuery apiKey])%list.
Proof.
  intros Hc Hfail.
  assert (Hrun : forall v, stateCache v = None ->
            getStateMapping linear apiKey v
            = (inl {| message := msg |},
               {| stateCache := None; calls := calls v ++ [WorkflowStatesQuery apiKey] |})).
  { intros v Hv. rewrite (getStateMapping_cold linear apiKey v Hv). unfold record.
    rewrite Hv. destruct (workflowStates linear apiKey); simpl in Hfail;
      try discriminate; injection Hfail as <-; reflexivity. }
  split; [apply Hrun; exact Hc|].
  rewrite (Hrun w Hc). simpl. rewrite Hrun by reflexivity. simpl.
  rewrite <- app_assoc. reflexivity.
Qed.

Lemma failed_query_is_not_cached_witness :
  getStateMapping Faulty.no_states "lin_api_key" Sample.cold
  = (inl {| message := "Linear API error: 503" |},
     {| stateCache := None; calls := [WorkflowStatesQuery "lin_api_key"] |})
  /\ calls (snd (getStateMapping Faulty.no_states "lin_api_key"
                   (snd (getStateMapping Faulty.no_states "lin_api_key" Sample.cold))))
     = [WorkflowStatesQuery "lin_api_key"; WorkflowStatesQuery "lin_api_key"].
Proof.
  apply (failed_query_is_not_cached Faulty.no_states "lin_api_key"
           "Linear API error: 503" Sample.cold); reflexivity.
Defined.

(** ** Resolution of a name *)

(** X9: what a name resolves to.  Reading [n] on the index built from a
    status list gives: for [__proto__], the prototype object, whatever the
    list holds; otherwise the id of the last state named [n], if there is
    one; otherwise the inherited member when [n] is a property name of
    [Object.prototype], and [undefined] when it is not. *)
Theorem resolve_name (states : list WorkflowState) (n : string) :
  get_property (state_index states) n
  = if String.eqb n "__proto__" then Inherited n
    else match last (filter (fun s => name s = n) states) with
         | Some s => Parsed (JStr (id s))
         | None => if bool_decide (n ∈ object_prototype) then Inherited n else Undefined
         end.
Proof.
  unfold get_property. rewrite state_index_lookup.
  destruct (String.eqb_spec n "__proto__") as [->|Hn]; [reflexivity|].
  destruct (last (filter (fun s => name s = n) states)); reflexivity.
Qed.

(** ** Moving an issue to a named state *)

Lemma truthy_nonempty (t : string) : t <> EmptyString -> truthy_json (JStr t) = true.
Proof. intros H. simpl. rewrite (eqb_string_false _ _ H). reflexivity. Qed.

(** X10: the successful move by name.  For a POST /update with a truthy
    issueId, no usable targetStateId and a targetState string other than
    [__proto__], when the status list holds states of that name and the last
    of them has a non-empty id: the status query is sent, then the mutation
    with the issueId of the body and that id, and nothing else; the index is
    left in the cache; and when Linear answers the mutation with a result
    (the order being absent or an array), the response is the 200 carrying
    the issue of that result. *)
Theorem named_state_is_resolved (linear : Linear) (request : Request) (env : Env)
    (apiKey t : string) (b : Json) (states : list WorkflowState) (s : WorkflowState)
    (w : World) :
  post_update request ->
  configured env apiKey ->
  json request = inr b ->
  truthy (property b "issueId") = true ->
  property b "targetState" = Parsed (JStr t) ->
  t <> EmptyString ->
  t <> "__proto__" ->
  truthy (property b "targetStateId") = false ->
  workflowStates linear apiKey = Data states ->
  last (filter (fun s => name s = t) states) = Some s ->
  id s <> EmptyString ->
  snd (fetch linear request env w)
  = {| stateCache := Some (state_index states);
       calls := calls w ++ [WorkflowStatesQuery apiKey;
                            IssueUpdateMutation apiKey (property b "issueId")
                              (Parsed (JStr (id s)))] |}
  /\ (forall p,
        issueUpdate linear apiKey (property b "issueId") (Parsed (JStr (id s))) = Data p ->
        absent_or_array (property b "order") = true ->
        response_of (fetch linear request env w)
        = Some (json_response 200 (JObj [("success", JBool true); ("issue", issue p)]))).
Proof.
  intros Hpost Hc Hb Hi Ht Hne Hproto Hs Hreply Hlast Hid.
  rewrite (fetch_update linear request env apiKey w Hpost Hc).
  rewrite (handleUpdate_by_name linear request apiKey b (JStr t) (reset w)
             Hb Hi Ht (truthy_nonempty t Hne) Hs eq_refl).
  rewrite Hreply. cbn [to_string]. cbv zeta.
  rewrite (last_write_wins states t s Hproto Hlast). cbn [truthy].
  rewrite (truthy_nonempty (id s) Hid). split.
  - rewrite forward_world. unfold record. simpl. rewrite <- app_assoc. reflexivity.
  - intros p Hp Ho. rewrite (forward_data linear apiKey _ _ _ p _ Hp Ho). reflexivity.
Qed.

Lemma named_state_is_resolved_witness :
  snd (fetch Faulty.twice_done
         (Sample.update (JObj [("issueId", JStr "ISSUE-1"); ("targetState", JStr "Done")]))
         Sample.env Sample.cold)
  = {| stateCache :=
         Some (state_index [ {| id := "state-old"; name := "Done" |}; Sample.todo;
                             {| id := "state-new"; name := "Done" |} ]);
       calls := [WorkflowStatesQuery "lin_api_key";
                 IssueUpdateMutation "lin_api_key" (Parsed (JStr "ISSUE-1"))
                   (Parsed (JStr "state-new"))] |}.
Proof.
  apply (named_state_is_resolved Faulty.twice_done _ Sample.env "lin_api_key" "Done"
           (JObj [("issueId", JStr "ISSUE-1"); ("targetState", JStr "Done")])
           [ {| id := "state-old"; name := "Done" |}; Sample.todo;
             {| id := "state-new"; name := "Done" |} ]
           {| id := "state-new"; name := "Done" |} Sample.cold);
    try reflexivity; try discriminate.
  - split; reflexivity.
  - split; [reflexivity | discriminate].
Defined.

(** X11: the answer to an unknown name.  For a POST /update with a truthy
    issueId, no usable targetStateId and a non-empty targetState string that
    names no state of the fetched list and no member of [Object.prototype],
    the response is the 404 whose error message quotes the requested name;
    the status query is the only request sent, and its index stays in the
    cache. *)
Theorem unknown_state_answer (linear : Linear) (request : Request) (env : Env)
    (apiKey t : string) (b : Json) (states : list WorkflowState) (w : World) :
  post_update request ->
  configured env apiKey ->
  json request = inr b ->
  truthy (property b "issueId") = true ->
  property b "targetState" = Parsed (JStr t) ->
  t <> EmptyString ->
  truthy (property b "targetStateId") = false ->
  workflowStates linear apiKey = Data states ->
  (forall s, s ∈ states -> name s <> t) ->
  t ∉ object_prototype ->
  fetch linear request env w
  = (inr (error_response 404 ("State " ++ double_quote ++ t ++ double_quote ++ " not found")),
     {| stateCache := Some (state_index states);
        calls := calls w ++ [WorkflowStatesQuery apiKey] |}).
Proof.
  intros Hpost Hc Hb Hi Ht Hne Hs Hreply Hfresh Hproto.
  rewrite (fetch_update linear request env apiKey w Hpost Hc).
  rewrite (handleUpdate_by_name linear request apiKey b (JStr t) (reset w)
             Hb Hi Ht (truthy_nonempty t Hne) Hs eq_refl).
  rewrite Hreply. cbn [to_string]. cbv zeta.
  rewrite (unknown_name states t Hfresh), bool_decide_eq_false_2 by exact Hproto.
  reflexivity.
Qed.

Lemma unknown_state_answer_witness :
  fetch Sample.linear
    (Sample.update (JObj [("issueId", JStr "ISSUE-1"); ("targetState", JStr "Review")]))
    Sample.env Sample.cold
  = (inr (error_response 404
            ("State " ++ double_quote ++ "Review" ++ double_quote ++ " not found")),
     {| stateCache := Some (state_index [Sample.todo; Sample.done]);
        calls := [WorkflowStatesQuery "lin_api_key"] |}).
Proof.
  apply (unknown_state_answer Sample.linear _ Sample.env "lin_api_key" "Review"
           (JObj [("issueId", JStr "ISSUE-1"); ("targetState", JStr "Review")])
           [Sample.todo; Sample.done] Sample.cold);
    try reflexivity; try discriminate.
  - split; reflexivity.
  - split; [reflexivity | discriminate].
  - intros s Hs. apply list_elem_of_In in Hs. simpl in Hs.
    destruct Hs as [<- | [<- | []]]; discriminate.
  - intros Hin. apply list_elem_of_In in Hin. simpl in Hin.
    repeat (destruct Hin as [Hin|Hin]; [discriminate|]). exact Hin.
Defined.

(** ** Failures of Linear *)

(** X12: a failed status query fails the request.  For a POST /update that
    has to resolve its targetState (truthy issueId and targetState, no
    usable targetStateId), when the reply to the status query is an HTTP
    error, a GraphQL error list, or cannot be read, the response is the 500
    carrying the message of that failure; the status query is the only
    request sent, no mutation follows, and the cache stays empty. *)
Theorem status_query_failure (linear : Linear) (request : Request) (env : Env)
    (apiKey msg : string) (b : Json) (w : World) :
  post_update request ->
  configured env apiKey ->
  json request = inr b ->
  truthy (property b "issueId") = true ->
  truthy (property b "targetState") = true ->
  truthy (property b "targetStateId") = false ->
  failure_message (workflowStates linear apiKey) = Some msg ->
  fetch linear request env w
  = (inr (error_response 500 msg),
     {| stateCache := None; calls := calls w ++ [WorkflowStatesQuery apiKey] |}).
Proof.
  intros Hpost Hc Hb Hi Ht Hs Hfail.
  destruct (property_parsed b "targetState" Ht) as (t & Hpt & Htt).
  rewrite (fetch_update linear request env apiKey w Hpost Hc).
  rewrite (handleUpdate_by_name linear request apiKey b t (reset w) Hb Hi Hpt Htt Hs eq_refl).
  destruct (workflowStates linear apiKey); simpl in Hfail;
    try discriminate; injection Hfail as <-; reflexivity.
Qed.

Lemma status_query_failure_witness :
  fetch Faulty.no_states
    (Sample.update (JObj [("issueId", JStr "ISSUE-1"); ("targetState", JStr "Done")]))
    Sample.env Sample.cold
  = (inr (error_response 500 "Linear API error: 503"),
     {| stateCache := None; calls := [WorkflowStatesQuery "lin_api_key"] |}).
Proof.
  apply (status_query_failure Faulty.no_states _ Sample.env "lin_api_key"
           "Linear API error: 503"
           (JObj [("issueId", JStr "ISSUE-1"); ("targetState", JStr "Done")]) Sample.cold);
    try reflexivity.
  - split; reflexivity.
  - split; [reflexivity | discriminate].
Defined.

(** X13: a failed mutation fails the request.  When the last request a POST
    /update sent is the mutation and the reply to it is an HTTP error, a
    GraphQL error list, or cannot be read, the response is the 500 carrying
    the message of that failure: Linear API error followed by the HTTP
    status, Linear GraphQL error followed by the serialized error list, or
    the message of the rejection. *)
Theorem mutation_failure (linear : Linear) (request : Request) (env : Env)
    (apiKey msg : string) (i s : Value) (w : World) :
  post_update request ->
  configured env apiKey ->
  last (sent w (fetch linear request env w)) = Some (IssueUpdateMutation apiKey i s) ->
  failure_message (issueUpdate linear apiKey i s) = Some msg ->
  response_of (fetch linear request env w) = Some (error_response 500 msg).
Proof.
  intros Hpost Hc. rewrite (fetch_update linear request env apiKey w Hpost Hc).
  rewrite <- sent_reset.
  apply (handleUpdate_cases linear request apiKey (reset w)); try reflexivity.
  - intros reason _. rewrite sent_nothing. discriminate.
  - intros _. rewrite sent_nothing. discriminate.
  - intros b _ _ _. rewrite sent_nothing. discriminate.
  - intros b _ _ _ _. rewrite forward_sent by reflexivity. intros Hlast Hfail.
    injection Hlast as <- <-.
    rewrite (forward_failure linear apiKey _ _ _ msg _ Hfail). reflexivity.
  - intros b t _ _ _ _ _.
    destruct (workflowStates linear apiKey) as [reason|st|reason|e|states];
      try (intros Hlast; unfold sent, record in Hlast; simpl in Hlast;
           rewrite drop_app_length in Hlast; discriminate).
    cbv zeta. destruct (to_string t) as [k|];
      [|intros Hlast; unfold sent in Hlast; simpl in Hlast;
        rewrite drop_app_length in Hlast; discriminate].
    destruct (truthy (get_property (state_index states) k));
      [|intros Hlast; unfold sent in Hlast; simpl in Hlast;
        rewrite drop_app_length in Hlast; discriminate].
    rewrite (sent_app (reset w) _
               [WorkflowStatesQuery apiKey;
                IssueUpdateMutation apiKey (property b "issueId")
                  (get_property (state_index states) k)])
      by (rewrite forward_world; simpl; rewrite <- app_assoc; reflexivity).
    intros Hlast Hfail. injection Hlast as <- <-.
    rewrite (forward_failure linear apiKey _ _ _ msg _ Hfail). reflexivity.
Qed.

Lemma mutation_failure_witness :
  response_of
    (fetch Faulty.no_update
       (Sample.update (JObj [("issueId", JStr "ISSUE-9"); ("targetState", JStr "Done")]))
       Sample.env Sample.cold)
  = Some (error_response 500
            "Linear GraphQL error: [{'message':'Entity not found: Issue'}]").
Proof.
  apply (mutation_failure Faulty.no_update _ Sample.env "lin_api_key"
           "Linear GraphQL error: [{'message':'Entity not found: Issue'}]"
           (Parsed (JStr "ISSUE-9")) (Parsed (JStr "state-done")) Sample.cold).
  - split; reflexivity.
  - split; [reflexivity | discriminate].
  - vm_compute. reflexivity.
  - reflexivity.
Defined.

(** ** Bodies that are rejected *)

(** X14: a field that is there but falsy counts as missing.  A POST /update
    whose body parses to a value other than null, and whose issueId or
    targetState is missing, null, false, zero or the empty string, is
    answered 400 with the message Missing issueId or targetState; the cache
    is emptied and nothing is sent to Linear.  This covers bodies that are
    not objects (a string, a number, an array). *)
Theorem falsy_field_is_400 (linear : Linear) (request : Request) (env : Env)
    (apiKey : string) (b : Json) (w : World) :
  post_update request ->
  configured env apiKey ->
  json request = inr b ->
  b <> JNull ->
  truthy (property b "issueId") = false \/ truthy (property b "targetState") = false ->
  fetch linear request env w
  = (inr (error_response 400 "Missing issueId or targetState"), reset w).
Proof.
  intros Hpost Hc Hb Hnn Hfalsy.
  rewrite (fetch_update linear request env apiKey w Hpost Hc).
  apply (handleUpdate_rejects linear request apiKey b (reset w) Hb Hnn Hfalsy).
Qed.

Lemma falsy_field_is_400_witness :
  fetch Sample.linear
    (Sample.update (JObj [("issueId", JStr EmptyString); ("targetState", JStr "Done")]))
    Sample.env Sample.cold
  = (inr (error_response 400 "Missing issueId or targetState"), reset Sample.cold).
Proof.
  apply (falsy_field_is_400 Sample.linear _ Sample.env "lin_api_key"
           (JObj [("issueId", JStr EmptyString); ("targetState", JStr "Done")])).
  - split; reflexivity.
  - split; [reflexivity | discriminate].
  - reflexivity.
  - discriminate.
  - left. reflexivity.
Defined.

(** X15: a body that cannot be read is a 500, not a 400.  When
    [request.json()] rejects, the response to a POST /update is the 500
    carrying the message of the rejection; when the body is the document
    null, it is the 500 of the failed destructuring.  Either way nothing is
    sent to Linear. *)
Theorem body_not_readable (linear : Linear) (request : Request) (env : Env)
    (apiKey : string) (w : World) :
  post_update request ->
  configured env apiKey ->
  (forall reason, json request = inl reason ->
     fetch linear request env w = (inr (error_response 500 reason), reset w))
  /\ (json request = inr JNull ->
      status_of (fetch linear request env w) = Some 500
      /\ sent w (fetch linear request env w) = []).
Proof.
  intros Hpost Hc. rewrite (fetch_update linear request env apiKey w Hpost Hc). split.
  - intros reason Hb. apply handleUpdate_unreadable. exact Hb.
  - intros Hb. rewrite (handleUpdate_null linear request apiKey (reset w) Hb).
    split; [reflexivity | apply sent_nothing_reset].
Qed.

Lemma body_not_readable_witness :
  fetch Sample.linear
    {| method := "POST"; pathname := "/update"; json := inl "Unexpected token" |}
    Sample.env Sample.cold
  = (inr (error_response 500 "Unexpected token"), reset Sample.cold).
Proof.
  apply (body_not_readable Sample.linear
           {| method := "POST"; pathname := "/update"; json := inl "Unexpected token" |}
           Sample.env "lin_api_key" Sample.cold).
  - split; reflexivity.
  - split; [reflexivity | discriminate].
  - reflexivity.
Defined.

(** X16: a targetState that has no string form.  When targetState is an
    object with a toString property of its own, or an array holding one, the
    lookup in the index throws: a POST /update that has to resolve it is
    answered 500 after the status query, and the mutation is not sent. *)
Theorem unconvertible_targetState (linear : Linear) (request : Request) (env : Env)
    (apiKey : string) (b t : Json) (w : World) :
  post_update request ->
  configured env apiKey ->
  json request = inr b ->
  truthy (property b "issueId") = true ->
  property b "targetState" = Parsed t ->
  truthy_json t = true ->
  to_string t = None ->
  truthy (property b "targetStateId") = false ->
  status_of (fetch linear request env w) = Some 500
  /\ sent w (fetch linear request env w) = [WorkflowStatesQuery apiKey].
Proof.
  intros Hpost Hc Hb Hi Hpt Htt Hnone Hs.
  rewrite (fetch_update linear request env apiKey w Hpost Hc). split.
  - rewrite (handleUpdate_by_name linear request apiKey b t (reset w) Hb Hi Hpt Htt Hs eq_refl).
    rewrite Hnone. destruct (workflowStates linear apiKey); reflexivity.
  - rewrite <- sent_reset.
    rewrite (by_name_sent linear request apiKey b t (reset w) Hb Hi Hpt Htt Hs eq_refl).
    rewrite Hnone. destruct (workflowStates linear apiKey); reflexivity.
Qed.

Lemma unconvertible_targetState_witness :
  status_of
    (fetch Sample.linear
       (Sample.update (JObj [("issueId", JStr "ISSUE-1");
                             ("targetState", JArr [JStr "Done"; JObj [("toString", JNull)]])]))
       Sample.env Sample.cold) = Some 500
  /\ sent Sample.cold
       (fetch Sample.linear
          (Sample.update (JObj [("issueId", JStr "ISSUE-1");
                                ("targetState", JArr [JStr "Done"; JObj [("toString", JNull)]])]))
          Sample.env Sample.cold)
     = [WorkflowStatesQuery "lin_api_key"].
Proof.
  apply (unconvertible_targetState Sample.linear _ Sample.env "lin_api_key"
           (JObj [("issueId", JStr "ISSUE-1");
                  ("targetState", JArr [JStr "Done"; JObj [("toString", JNull)]])])
           (JArr [JStr "Done"; JObj [("toString", JNull)]]) Sample.cold);
    try reflexivity.
  - split; reflexivity.
  - split; [reflexivity | discriminate].
Defined.

(** ** The string form of targetState *)

(** X17: targetState is tested for truthiness and otherwise read through its
    string form only.  Two requests that differ in nothing but targetState,
    both truthy and with the same string form (the string Done and the array
    holding it, say), have the same outcome: same response, same requests to
    Linear, same cache. *)
Theorem targetState_is_coerced (linear : Linear) (request request' : Request) (env : Env)
    (b b' t t' : Json) (w : World) :
  method request' = method request ->
  pathname request' = pathname request ->
  json request = inr b ->
  json request' = inr b' ->
  property b' "issueId" = property b "issueId" ->
  property b' "targetStateId" = property b "targetStateId" ->
  property b' "order" = property b "order" ->
  property b "targetState" = Parsed t ->
  property b' "targetState" = Parsed t' ->
  truthy_json t = true ->
  truthy_json t' = true ->
  to_string t' = to_string t ->
  fetch linear request' env w = fetch linear request env w.
Proof.
  intros Hm Hp Hb Hb' Hi Hs Ho Ht Ht' Htt Htt' Hstr.
  unfold fetch. rewrite Hm, Hp.
  destruct (String.eqb (method request) "OPTIONS"); [reflexivity|].
  destruct (LINEAR_API_KEY env) as [apiKey|]; [|reflexivity].
  destruct (String.eqb apiKey EmptyString); [reflexivity|].
  unfold bind, set_stateCache. fold (reset w).
  destruct (String.eqb (pathname request) "/update" && String.eqb (method request) "POST");
    [|reflexivity].
  assert (Hnn : b <> JNull) by (intros ->; discriminate).
  assert (Hnn' : b' <> JNull) by (intros ->; discriminate).
  destruct (truthy (property b "issueId")) eqn:Hti.
  - destruct (truthy (property b "targetStateId")) eqn:Hts.
    + rewrite (handleUpdate_with_id linear request apiKey b (reset w) Hb Hti)
        by (rewrite ?Ht; assumption).
      rewrite (handleUpdate_with_id linear request' apiKey b' (reset w) Hb')
        by (rewrite ?Hi, ?Hs, ?Ht'; assumption).
      rewrite Hi, Hs, Ho. reflexivity.
    + rewrite (handleUpdate_by_name linear request apiKey b t (reset w)
                 Hb Hti Ht Htt Hts eq_refl).
      rewrite (handleUpdate_by_name linear request' apiKey b' t' (reset w) Hb')
        by (rewrite ?Hi, ?Hs; first [assumption | reflexivity]).
      rewrite Hstr, Hi, Ho. reflexivity.
  - rewrite (handleUpdate_rejects linear request apiKey b (reset w) Hb Hnn (or_introl Hti)).
    rewrite (handleUpdate_rejects linear request' apiKey b' (reset w) Hb' Hnn')
      by (left; rewrite Hi; exact Hti).
    reflexivity.
Qed.

Lemma targetState_is_coerced_witness :
  fetch Sample.linear
    (Sample.update (JObj [("issueId", JStr "ISSUE-1"); ("targetState", JArr [JStr "Done"])]))
    Sample.env Sample.cold
  = fetch Sample.linear
      (Sample.update (JObj [("issueId", JStr "ISSUE-1"); ("targetState", JStr "Done")]))
      Sample.env Sample.cold.
Proof.
  apply (targetState_is_coerced Sample.linear _ _ Sample.env
           (JObj [("issueId", JStr "ISSUE-1"); ("targetState", JStr "Done")])
           (JObj [("issueId", JStr "ISSUE-1"); ("targetState", JArr [JStr "Done"])])
           (JStr "Done") (JArr [JStr "Done"]) Sample.cold); reflexivity.
Defined.
